(** * Verification of the atltvhead.github.io front-end scripts

    A shallow embedding of the page scripts (viewer.js in its gemstone,
    iridescence and plain variants, main.js, animations.js, modelLoader.js and
    the progressive image loader) with the properties the specification
    states about them.

    Conventions of the embedding.
    - The colour ramp [getGemColor], whose end points depend on rounding, is
      embedded over IEEE doubles (the kernel's binary64 numbers).  Elsewhere
      a JavaScript number is an exact rational ([Q]), used for properties
      that rounding does not touch; where the source can produce [NaN] (the
      tween of animations.js) the number type is extended with it.
    - A [classList] is a finite set of class names ([gset string]).
    - A DOM element that the source tests before use ([if (burger)],
      [if (indicator)], ...) is an [option]; an element the source
      dereferences without a test is taken to be present.
    - Callbacks run to completion one after the other; an asynchronous
      source of calls (wheel events, the model loader, timers, the
      intersection observer) is a list of events fed to a step function. *)

From stdpp Require Import gmap strings list pretty.
From Stdlib Require Import ZArith QArith Qabs Qround Lqa Lia.
From Stdlib Require Floats Uint63.

(** ** Part I: the embedding *)

(** *** JavaScript helpers *)
Module JS.

Local Open Scope Q_scope.

(** [Math.max(a, b)] and [Math.min(a, b)] on two numbers. *)
Definition Math_max (a b : Q) : Q := if Qlt_le_dec a b then b else a.
Definition Math_min (a b : Q) : Q := if Qlt_le_dec b a then b else a.

(** [Math.round(x)]: the nearest integer, halves rounded up. *)
Definition Math_round (x : Q) : Z := Qfloor (x + (1 # 2)).

(** [element.classList]: [add], [remove], [contains] and [toggle]. *)
Definition classList_add (c : string) (l : gset string) : gset string := {[ c ]} ∪ l.
Definition classList_remove (c : string) (l : gset string) : gset string := l ∖ {[ c ]}.
Definition classList_contains (c : string) (l : gset string) : bool := bool_decide (c ∈ l).
Definition classList_toggle (c : string) (l : gset string) : gset string :=
  if classList_contains c l then classList_remove c l else classList_add c l.

End JS.

(** *** The parts of three.js (r128, the release the README names) that the
    scripts compute with *)
Module Three.

Local Open Scope Q_scope.

(** Modelled from the spec: the "third-party WebGL graphics library" is not
    among the sources; [THREE.Color] is taken as release r128 has it, three
    channels in [0,1]. *)
Record Color := mkColor { r : Q; g : Q; b : Q }.

(** [new THREE.Color(hex)], i.e. [setHex]:
    [r = (hex >> 16 & 255) / 255], [g = (hex >> 8 & 255) / 255],
    [b = (hex & 255) / 255]. *)
Definition setHex (hex : Z) : Color :=
  {| r := inject_Z (Z.land (Z.shiftr hex 16) 255) / 255;
     g := inject_Z (Z.land (Z.shiftr hex 8) 255) / 255;
     b := inject_Z (Z.land hex 255) / 255 |}.

(** [a.copy(c)] overwrites the three channels of [a] with those of [c]. *)
Definition copy (_ c : Color) : Color := c.

(** [a.lerp(c, alpha)]: [a.r += (c.r - a.r) * alpha], likewise [g], [b]. *)
Definition lerp (a c : Color) (alpha : Q) : Color :=
  {| r := r a + (r c - r a) * alpha;
     g := g a + (g c - g a) * alpha;
     b := b a + (b c - b a) * alpha |}.

(** Channelwise equality of colours as numbers. *)
Definition Color_eq (a c : Color) : Prop := r a == r c /\ g a == g c /\ b a == b c.

End Three.

(** *** viewer.js, gemstone variant (scroll-driven hue) *)
Module GemViewer.

Local Open Scope Q_scope.

Record Material := { color : Three.Color; needsUpdate : bool }.

(** The [#gem-state-indicator] element: its text and its [style.color]. *)
Record Indicator := { textContent : string; style_color : string }.

Record ModelViewer := {
  gemMaterials : list Material;
  scrollProgress : Q;
  indicator : option Indicator;        (* [getElementById('gem-state-indicator')] *)
  canvasContainer : bool               (* does [#canvas-container] exist *)
}.

Definition new_Color : Three.Color := Three.mkColor 1 1 1.

(** [getGemColor(progress)]. *)
Definition getGemColor (progress : Q) : Three.Color :=
  let crystalColor := Three.setHex 0xffffff in
  let rubyColor := Three.setHex 0xff1744 in
  let sapphireColor := Three.setHex 0x2979ff in
  let color := new_Color in
  if Qle_bool progress (1 # 2) then
    let t := progress * 2 in
    Three.lerp (Three.copy color crystalColor) rubyColor t
  else
    let t := (progress - (1 # 2)) * 2 in
    Three.lerp (Three.copy color rubyColor) sapphireColor t.

(** [createGemMaterial(hue)]: a material of the gem colour, pushed on
    [gemMaterials] and returned. *)
Definition createGemMaterial (hue : Q) (v : ModelViewer) : Material * ModelViewer :=
  let material := {| color := getGemColor hue; needsUpdate := false |} in
  (material,
   {| gemMaterials := gemMaterials v ++ [material];
      scrollProgress := scrollProgress v;
      indicator := indicator v;
      canvasContainer := canvasContainer v |}).

Definition channel255 (x : Q) : string := pretty (JS.Math_round (x * 255)).

(** [updateColorIndicator(progress)]. *)
Definition updateColorIndicator (progress : Q) (v : ModelViewer) : ModelViewer :=
  match indicator v with
  | Some _ =>
      let stateName :=
        if Qlt_le_dec progress (1 # 4) then "Crystal"%string
        else if Qlt_le_dec progress (3 # 4) then "Ruby"%string
        else "Sapphire"%string in
      let color := getGemColor progress in
      let css := ("rgb(" +:+ channel255 (Three.r color) +:+ ", "
                  +:+ channel255 (Three.g color) +:+ ", "
                  +:+ channel255 (Three.b color) +:+ ")")%string in
      {| gemMaterials := gemMaterials v;
         scrollProgress := scrollProgress v;
         indicator := Some {| textContent := stateName; style_color := css |};
         canvasContainer := canvasContainer v |}
  | None => v
  end.

(** [updateGemHue(progress)]. *)
Definition updateGemHue (progress : Q) (v : ModelViewer) : ModelViewer :=
  let color := getGemColor progress in
  let v1 :=
    {| gemMaterials :=
         map (fun material =>
                {| color := Three.copy (GemViewer.color material) color;
                   needsUpdate := true |}) (gemMaterials v);
       scrollProgress := scrollProgress v;
       indicator := indicator v;
       canvasContainer := canvasContainer v |} in
  updateColorIndicator progress v1.

(** A [wheel] event, as far as the listener reads it. *)
Record WheelEvent := { shiftKey : bool; deltaY : Q }.

(** The [wheel] listener of [setupEventListeners]. *)
Definition onWheel (e : WheelEvent) (v : ModelViewer) : ModelViewer :=
  if shiftKey e then
    let delta := if Qlt_le_dec 0 (deltaY e) then 2 # 100 else - (2 # 100) in
    let v1 :=
      {| gemMaterials := gemMaterials v;
         scrollProgress := JS.Math_max 0 (JS.Math_min 1 (scrollProgress v + delta));
         indicator := indicator v;
         canvasContainer := canvasContainer v |} in
    updateGemHue (scrollProgress v1) v1
  else v.

(** The listener is attached only when [#canvas-container] exists. *)
Definition dispatchWheel (e : WheelEvent) (v : ModelViewer) : ModelViewer :=
  if canvasContainer v then onWheel e v else v.

(** The state the constructor leaves before any callback has run. *)
Definition new_ModelViewer (ind : option Indicator) (container : bool) : ModelViewer :=
  {| gemMaterials := [];
     scrollProgress := 0;
     indicator := ind;
     canvasContainer := container |}.

(** [n] calls of [createGemMaterial(this.scrollProgress)], one per mesh. *)
Fixpoint createGemMaterials (n : nat) (v : ModelViewer) : ModelViewer :=
  match n with
  | O => v
  | S k => createGemMaterials k (snd (createGemMaterial (scrollProgress v) v))
  end.

(** The success callback of [loadModel], for an object with [meshes] meshes:
    every mesh gets a gem material, then the hue is initialised. *)
Definition onModelLoaded (meshes : nat) (v : ModelViewer) : ModelViewer :=
  let v1 := createGemMaterials meshes v in
  updateGemHue (scrollProgress v1) v1.

(** [loadDefaultGeometry()], run by the error callback: one icosahedron and
    four octahedra, each with its own gem material. *)
Definition loadDefaultGeometry (v : ModelViewer) : ModelViewer :=
  let v1 := createGemMaterials (1 + 4) v in
  updateGemHue (scrollProgress v1) v1.

(** What the page can deliver to the viewer after construction. *)
Inductive Event :=
| Wheel (e : WheelEvent)
| ModelLoaded (meshes : nat)
| ModelFailed.

Definition handle (v : ModelViewer) (ev : Event) : ModelViewer :=
  match ev with
  | Wheel e => dispatchWheel e v
  | ModelLoaded meshes => onModelLoaded meshes v
  | ModelFailed => loadDefaultGeometry v
  end.

Definition run (evs : list Event) (v : ModelViewer) : ModelViewer :=
  fold_left handle evs v.

End GemViewer.

(** *** viewer.js, iridescence variant (thin-film thickness on Shift+wheel) *)
Module IridescenceViewer.

Local Open Scope Q_scope.

(** Modelled from the spec: the class [ThinFilmFresnelMap] of the "public
    sample" is not among the sources.  It is taken as viewer.js uses it:
    built from [(filmThickness, refractiveIndexFilm, refractiveIndexBase,
    size)], with a [filmThickness] property that holds what was last
    assigned to it. *)
Record ThinFilmFresnelMap := {
  filmThickness : Q;
  refractiveIndexFilm : Q;
  refractiveIndexBase : Q;
  size : Z
}.

Definition set_filmThickness (thickness : Q) (m : ThinFilmFresnelMap) : ThinFilmFresnelMap :=
  {| filmThickness := thickness;
     refractiveIndexFilm := refractiveIndexFilm m;
     refractiveIndexBase := refractiveIndexBase m;
     size := size m |}.

(** A [MeshStandardMaterial] with its [userData.fresnelMap]. *)
Record Material := {
  metalness : Q;
  roughness : Q;
  userData_fresnelMap : option ThinFilmFresnelMap
}.

Record ModelViewer := {
  iridescenceMaterials : list Material;
  viewerThickness : Q;                 (* [this.filmThickness] *)
  indicator : option string;           (* text of [#gem-state-indicator] *)
  canvasContainer : bool               (* does [#canvas-container] exist *)
}.

(** [createIridescenceMaterial(thickness)]. *)
Definition createIridescenceMaterial (thickness : Q) (v : ModelViewer) : Material * ModelViewer :=
  let fresnelMap :=
    {| filmThickness := thickness; refractiveIndexFilm := 2;
       refractiveIndexBase := 3; size := 64 |} in
  let material :=
    {| metalness := 9 # 10; roughness := 1 # 10;
       userData_fresnelMap := Some fresnelMap |} in
  (material,
   {| iridescenceMaterials := iridescenceMaterials v ++ [material];
      viewerThickness := viewerThickness v;
      indicator := indicator v;
      canvasContainer := canvasContainer v |}).

(** [updateThicknessIndicator(thickness)]. *)
Definition updateThicknessIndicator (thickness : Q) (v : ModelViewer) : ModelViewer :=
  match indicator v with
  | Some _ =>
      {| iridescenceMaterials := iridescenceMaterials v;
         viewerThickness := viewerThickness v;
         indicator := Some (pretty (JS.Math_round thickness) +:+ "nm")%string;
         canvasContainer := canvasContainer v |}
  | None => v
  end.

(** [updateFilmThickness(thickness)]. *)
Definition updateFilmThickness (thickness : Q) (v : ModelViewer) : ModelViewer :=
  let v1 :=
    {| iridescenceMaterials :=
         map (fun material =>
                match userData_fresnelMap material with
                | Some fresnelMap =>
                    {| metalness := metalness material;
                       roughness := roughness material;
                       userData_fresnelMap := Some (set_filmThickness thickness fresnelMap) |}
                | None => material
                end) (iridescenceMaterials v);
       viewerThickness := thickness;
       indicator := indicator v;
       canvasContainer := canvasContainer v |} in
  updateThicknessIndicator thickness v1.

Record WheelEvent := { shiftKey : bool; deltaY : Q }.

(** The [wheel] listener of [setupEventListeners]. *)
Definition onWheel (e : WheelEvent) (v : ModelViewer) : ModelViewer :=
  if shiftKey e then
    let delta := if Qlt_le_dec 0 (deltaY e) then 20 else - 20 in
    let v1 :=
      {| iridescenceMaterials := iridescenceMaterials v;
         viewerThickness := JS.Math_max 200 (JS.Math_min 1000 (viewerThickness v + delta));
         indicator := indicator v;
         canvasContainer := canvasContainer v |} in
    updateFilmThickness (viewerThickness v1) v1
  else v.

Definition dispatchWheel (e : WheelEvent) (v : ModelViewer) : ModelViewer :=
  if canvasContainer v then onWheel e v else v.

Fixpoint createIridescenceMaterials (n : nat) (v : ModelViewer) : ModelViewer :=
  match n with
  | O => v
  | S k => createIridescenceMaterials k (snd (createIridescenceMaterial (viewerThickness v) v))
  end.

(** Success callback of [loadModel] for an object with [meshes] meshes. *)
Definition onModelLoaded (meshes : nat) (v : ModelViewer) : ModelViewer :=
  let v1 := createIridescenceMaterials meshes v in
  updateThicknessIndicator (viewerThickness v1) v1.

(** [loadDefaultGeometry()]: one icosahedron and four octahedra. *)
Definition loadDefaultGeometry (v : ModelViewer) : ModelViewer :=
  let v1 := createIridescenceMaterials (1 + 4) v in
  updateThicknessIndicator (viewerThickness v1) v1.

Definition new_ModelViewer (ind : option string) (container : bool) : ModelViewer :=
  {| iridescenceMaterials := [];
     viewerThickness := 380;
     indicator := ind;
     canvasContainer := container |}.

Inductive Event :=
| Wheel (e : WheelEvent)
| ModelLoaded (meshes : nat)
| ModelFailed.

Definition handle (v : ModelViewer) (ev : Event) : ModelViewer :=
  match ev with
  | Wheel e => dispatchWheel e v
  | ModelLoaded meshes => onModelLoaded meshes v
  | ModelFailed => loadDefaultGeometry v
  end.

Definition run (evs : list Event) (v : ModelViewer) : ModelViewer :=
  fold_left handle evs v.

(** A material whose fresnel map holds thickness [t]. *)
Definition has_thickness (t : Q) (m : Material) : Prop :=
  exists fresnelMap,
    userData_fresnelMap m = Some fresnelMap /\ filmThickness fresnelMap = t.

(** Every material the viewer stores carries a fresnel map. *)
Definition all_mapped (v : ModelViewer) : Prop :=
  Forall (fun m => is_Some (userData_fresnelMap m)) (iridescenceMaterials v).

(** The invariant of the viewer: thickness in range, every stored material
    mapped. *)
Definition film_inv (v : ModelViewer) : Prop :=
  (200 <= viewerThickness v <= 1000) /\ all_mapped v.

End IridescenceViewer.

(** *** js/viewer.js: loading the model, with the fallback geometry *)
Module Viewer.

Local Open Scope Q_scope.

Record Vector3 := { x : Q; y : Q; z : Q }.

Inductive Geometry :=
| BoxGeometry (width height depth : Q)
| EdgesGeometry (geometry : Geometry)
| FileGeometry (name : string).

Inductive Material :=
| MeshPhysicalMaterial (color : Z) (metalness roughness clearcoat clearcoatRoughness
                        reflectivity envMapIntensity : Q)
                       (emissive : Z) (emissiveIntensity : Q)
| LineBasicMaterial (color : Z) (linewidth : Q)
| FileMaterial (name : string).

#[warnings="-register-all"]
Inductive Object3D :=
| Mesh (geometry : Geometry) (material : Material) (position : Vector3)
       (castShadow receiveShadow : bool)
| LineSegments (geometry : Geometry) (material : Material) (position : Vector3)
| Light (kind : string) (color : Z) (intensity : Q)
| Group (children : list Object3D).

(** The callbacks handed to [setTimeout]. *)
Inductive Task := HideLoadingScreen.

Record ModelViewer := {
  model : option Object3D;
  scene : list Object3D;               (* children of [this.scene], in order *)
  loadingScreen : gset string;         (* [classList] of [#loading-screen] *)
  loadingText : string;                (* [textContent] of [#loading-text] *)
  progressBarWidth : option string;    (* [style.width] of [#progress-bar-fill] *)
  console : list string;
  now : Z;                             (* milliseconds *)
  timers : list (Z * Task)             (* pending timeouts with their due time *)
}.

Definition origin : Vector3 := {| x := 0; y := 0; z := 0 |}.

(** The material literal that both the success path and the fallback use. *)
Definition gemstoneMaterial : Material :=
  MeshPhysicalMaterial 0xffeeff (4 # 10) (2 # 10) 1 (15 # 100) 1 (15 # 10) 0x8844ff (25 # 100).

(** [setupLights()]. *)
Definition setupLights : list Object3D :=
  [ Light "AmbientLight" 0xffffff (6 # 10);
    Light "DirectionalLight" 0xffffff (12 # 10);
    Light "DirectionalLight" 0x44ffff (6 # 10);
    Light "DirectionalLight" 0xff44ff (5 # 10);
    Light "HemisphereLight" 0xffffff (4 # 10);
    Light "PointLight" 0xffaaff (8 # 10) ].

(** The state the constructor leaves at time [t0], before a loader callback. *)
Definition new_ModelViewer (t0 : Z) : ModelViewer :=
  {| model := None; scene := setupLights; loadingScreen := ∅;
     loadingText := ""; progressBarWidth := None; console := [];
     now := t0; timers := [] |}.

(** [Math.cos] and [Math.sin] at [i] quarter turns, [(i / 4) * Math.PI * 2]. *)
Definition cos_quarter (i : nat) : Q :=
  match i mod 4 with 0%nat => 1 | 2%nat => - 1 | _ => 0 end.
Definition sin_quarter (i : nat) : Q :=
  match i mod 4 with 1%nat => 1 | 3%nat => - 1 | _ => 0 end.

(** The body of the [for] loop of [loadDefaultGeometry] for index [i]: a
    small cube and its wireframe. *)
Definition smallCubes (material lineMaterial : Material) (i : nat) : list Object3D :=
  let radius := 3 in
  let smallGeo := BoxGeometry (1 # 2) (1 # 2) (1 # 2) in
  let position := {| x := cos_quarter i * radius; y := 0; z := sin_quarter i * radius |} in
  [ Mesh smallGeo material position true false;
    LineSegments (EdgesGeometry smallGeo) lineMaterial position ].

(** The group that [loadDefaultGeometry] builds. *)
Definition defaultGeometry : Object3D :=
  let geometry := BoxGeometry 2 2 2 in
  let material := gemstoneMaterial in
  let cube := Mesh geometry material origin true true in
  let lineMaterial := LineBasicMaterial 0xcc99ff 2 in
  let wireframe := LineSegments (EdgesGeometry geometry) lineMaterial origin in
  Group ([cube; wireframe] ++ flat_map (smallCubes material lineMaterial) (seq 0 4)).

(** [loadDefaultGeometry()]. *)
Definition loadDefaultGeometry (v : ModelViewer) : ModelViewer :=
  let group := defaultGeometry in
  {| model := Some group; scene := scene v ++ [group];
     loadingScreen := loadingScreen v; loadingText := loadingText v;
     progressBarWidth := progressBarWidth v; console := console v;
     now := now v; timers := timers v |}.

(** [setTimeout(task, delay)]. *)
Definition setTimeout (task : Task) (delay : Z) (v : ModelViewer) : ModelViewer :=
  {| model := model v; scene := scene v;
     loadingScreen := loadingScreen v; loadingText := loadingText v;
     progressBarWidth := progressBarWidth v; console := console v;
     now := now v; timers := timers v ++ [((now v + delay)%Z, task)] |}.

Definition set_loadingText (text : string) (v : ModelViewer) : ModelViewer :=
  {| model := model v; scene := scene v;
     loadingScreen := loadingScreen v; loadingText := text;
     progressBarWidth := progressBarWidth v; console := console v;
     now := now v; timers := timers v |}.

Definition set_progressBarWidth (width : string) (v : ModelViewer) : ModelViewer :=
  {| model := model v; scene := scene v;
     loadingScreen := loadingScreen v; loadingText := loadingText v;
     progressBarWidth := Some width; console := console v;
     now := now v; timers := timers v |}.

Definition console_log (line : string) (v : ModelViewer) : ModelViewer :=
  {| model := model v; scene := scene v;
     loadingScreen := loadingScreen v; loadingText := loadingText v;
     progressBarWidth := progressBarWidth v; console := console v ++ [line];
     now := now v; timers := timers v |}.

(** [object.traverse(child => { if (child instanceof THREE.Mesh) ... })]. *)
Fixpoint applyGemstone (o : Object3D) : Object3D :=
  match o with
  | Mesh geometry _ position _ _ => Mesh geometry gemstoneMaterial position true true
  | Group children => Group (map applyGemstone children)
  | other => other
  end.

(** The success callback of [loader.load].  Centring and scaling act on the
    transform of the loaded object, which this embedding does not carry. *)
Definition onLoad (object : Object3D) (v : ModelViewer) : ModelViewer :=
  let object := applyGemstone object in
  let v1 :=
    {| model := Some object; scene := scene v ++ [object];
       loadingScreen := loadingScreen v; loadingText := loadingText v;
       progressBarWidth := progressBarWidth v; console := console v;
       now := now v; timers := timers v |} in
  let v2 := set_loadingText "Model Loaded!" v1 in
  let v3 := set_progressBarWidth "100%" v2 in
  setTimeout HideLoadingScreen 500 v3.

(** The error callback of [loader.load]. *)
Definition onError (v : ModelViewer) : ModelViewer :=
  let v1 := console_log "Custom model not found, loading default geometry" v in
  let v2 := set_loadingText "Loading default geometry..." v1 in
  let v3 := loadDefaultGeometry v2 in
  setTimeout HideLoadingScreen 1000 v3.

(** Running a timeout callback. *)
Definition fire (v : ModelViewer) (t : Z * Task) : ModelViewer :=
  match snd t with
  | HideLoadingScreen =>
      {| model := model v; scene := scene v;
         loadingScreen := JS.classList_add "hidden" (loadingScreen v);
         loadingText := loadingText v;
         progressBarWidth := progressBarWidth v; console := console v;
         now := now v; timers := timers v |}
  end.

Definition due (t : Z) (timer : Z * Task) : bool := (fst timer <=? t)%Z.

(** [dt] milliseconds pass: the timeouts that have come due run, in the
    order they were set. *)
Definition advance (dt : Z) (v : ModelViewer) : ModelViewer :=
  let t := (now v + Z.max 0 dt)%Z in
  let v1 :=
    {| model := model v; scene := scene v;
       loadingScreen := loadingScreen v; loadingText := loadingText v;
       progressBarWidth := progressBarWidth v; console := console v;
       now := t; timers := List.filter (fun timer => negb (due t timer)) (timers v) |} in
  fold_left fire (List.filter (due t) (timers v)) v1.

Definition isMesh (o : Object3D) : bool :=
  match o with Mesh _ _ _ _ _ => true | _ => false end.

End Viewer.

(** *** main.js: navigation, active link on scroll, contact form *)
Module Main.

Local Open Scope Q_scope.

(** How a handler ends: normally, or by a [TypeError] on reading a property
    of [null]; either way with the page as it is at that point. *)
Inductive Completion (S : Type) :=
| Normal (s : S)
| TypeError (s : S).
Arguments Normal {S} s.
Arguments TypeError {S} s.

Definition state_of {S : Type} (c : Completion S) : S :=
  match c with Normal s => s | TypeError s => s end.

(** An [a.nav-link]: its [href] attribute ([None] when absent, for which
    [getAttribute] gives [null]) and its classes. *)
Record NavLink := { href : option string; classList : gset string }.

(** A [.section] element. *)
Record SectionEl := { offsetTop : Q; clientHeight : Q; id : option string }.

Record Field := { value : string; defaultValue : string }.

(** The [.contact-form] with its [#name], [#email] and [#message] controls. *)
Record ContactForm := { name : Field; email : Field; message : Field; action : string }.

Record Page := {
  burger : option (gset string);       (* classes of [.burger], if there is one *)
  nav : gset string;                   (* classes of [.nav-links] *)
  navLinks : list NavLink;             (* the [.nav-link] elements, in document order *)
  sections : list SectionEl;           (* the [.section] elements, in document order *)
  mainNav : gset string;               (* classes of [#main-nav] *)
  contactForm : option ContactForm
}.

(** The [click] listener of the burger; attached only [if (burger)]. *)
Definition onBurgerClick (pg : Page) : Page :=
  match burger pg with
  | Some cl =>
      {| burger := Some (JS.classList_toggle "toggle" cl);
         nav := JS.classList_toggle "active" (nav pg);
         navLinks := navLinks pg; sections := sections pg;
         mainNav := mainNav pg; contactForm := contactForm pg |}
  | None => pg
  end.

(** The [click] listener of every nav link. *)
Definition onNavLinkClick (pg : Page) : Completion Page :=
  let pg1 :=
    {| burger := burger pg;
       nav := JS.classList_remove "active" (nav pg);
       navLinks := navLinks pg; sections := sections pg;
       mainNav := mainNav pg; contactForm := contactForm pg |} in
  match burger pg1 with
  | Some cl =>
      Normal {| burger := Some (JS.classList_remove "toggle" cl);
                nav := nav pg1;
                navLinks := navLinks pg1; sections := sections pg1;
                mainNav := mainNav pg1; contactForm := contactForm pg1 |}
  | None => TypeError pg1
  end.

(** A string or [null] inside a template literal. *)
Definition toString (v : option string) : string :=
  match v with Some s => s | None => "null" end.

(** The first [forEach] of the scroll listener: the value of [current]
    after the sections have been visited in order. *)
Definition currentSection (pageYOffset : Q) (secs : list SectionEl) : option string :=
  fold_left
    (fun current section =>
       let sectionTop := offsetTop section in
       if Qle_bool (sectionTop - 200) pageYOffset then id section else current)
    secs (Some ""%string).

(** The body of the second [forEach]: one nav link. *)
Definition markLink (current : option string) (link : NavLink) : NavLink :=
  let cl := JS.classList_remove "active" (classList link) in
  if bool_decide (href link = Some ("#" +:+ toString current)%string)
  then {| href := href link; classList := JS.classList_add "active" cl |}
  else {| href := href link; classList := cl |}.

(** The [scroll] listener of [initNavigation]; [window.scrollY] is the same
    number as [window.pageYOffset]. *)
Definition onScroll (pageYOffset : Q) (pg : Page) : Page :=
  let current := currentSection pageYOffset (sections pg) in
  {| burger := burger pg; nav := nav pg;
     navLinks := map (markLink current) (navLinks pg);
     sections := sections pg;
     mainNav := if Qlt_le_dec 100 pageYOffset
                then JS.classList_add "scrolled" (mainNav pg)
                else JS.classList_remove "scrolled" (mainNav pg);
     contactForm := contactForm pg |}.

(** The object literal [{ name, email, message }] of the submit handler. *)
Record FormData := { fd_name : string; fd_email : string; fd_message : string }.

(** What a handler does to the world outside the page state. *)
Inductive Effect :=
| PreventDefault
| ConsoleLog (label : string) (data : FormData)
| Alert (text : string)
| FormReset
| NetworkRequest (url : string) (data : FormData).

Definition reset_field (f : Field) : Field :=
  {| value := defaultValue f; defaultValue := defaultValue f |}.

(** [contactForm.reset()]. *)
Definition reset (f : ContactForm) : ContactForm :=
  {| name := reset_field (name f); email := reset_field (email f);
     message := reset_field (message f); action := action f |}.

Definition readForm (f : ContactForm) : FormData :=
  {| fd_name := value (name f); fd_email := value (email f);
     fd_message := value (message f) |}.

(** The [submit] listener of [initContactForm]: the effects in order, and
    the form afterwards. *)
Definition onSubmit (f : ContactForm) : list Effect * ContactForm :=
  let formData := readForm f in
  ([ PreventDefault;
     ConsoleLog "Form submitted:" formData;
     Alert "Thank you for your message! I will get back to you soon.";
     FormReset ],
   reset f).

Definition isPreventDefault (e : Effect) : bool :=
  match e with PreventDefault => true | _ => false end.

Definition isNetwork (e : Effect) : bool :=
  match e with NetworkRequest _ _ => true | _ => false end.

(** A submit event on the form: the listener runs, then the browser sends
    the form to its [action] unless the default was prevented. *)
Definition dispatchSubmit (f : ContactForm) : list Effect * ContactForm :=
  let '(effects, f1) := onSubmit f in
  if existsb isPreventDefault effects then (effects, f1)
  else (effects ++ [NetworkRequest (action f1) (readForm f1)], f1).

End Main.

(** *** The active section as the specification words it *)
Module NavSpec.

Local Open Scope Q_scope.

(** [pageYOffset >= sectionTop - 200]. *)
Definition reached (pageYOffset : Q) (s : Main.SectionEl) : bool :=
  Qle_bool (Main.offsetTop s - 200) pageYOffset.

(** The last section in document order that has been reached. *)
Definition lastReached (pageYOffset : Q) (secs : list Main.SectionEl) : option Main.SectionEl :=
  last (List.filter (reached pageYOffset) secs).

(** ['#' + id] of that section. *)
Definition activeHref (s : Main.SectionEl) : string :=
  ("#" +:+ Main.toString (Main.id s))%string.

End NavSpec.

(** *** animations.js with the model registry of modelLoader.js *)
Module Animations.

Local Open Scope Q_scope.

(** A number that may be [NaN].  [undefined] turns into [NaN] under the
    arithmetic operators, and [NaN] compares false with everything. *)
Inductive number := Num (q : Q) | NaN.

Definition lift2 (f : Q -> Q -> Q) (a b : number) : number :=
  match a, b with
  | Num p, Num q => Num (f p q)
  | _, _ => NaN
  end.

Definition add := lift2 Qplus.
Definition sub := lift2 Qminus.
Definition mul := lift2 Qmult.

(** [a / b]; the divisors of the tween are never zero, the infinities are
    not part of [number]. *)
Definition div (a b : number) : number :=
  match a, b with
  | Num p, Num q => if Qeq_bool q 0 then NaN else Num (p / q)
  | _, _ => NaN
  end.

Definition lt (a b : number) : bool :=
  match a, b with
  | Num p, Num q => if Qlt_le_dec p q then true else false
  | _, _ => false
  end.

Definition Math_min (a b : number) : number :=
  match a, b with
  | Num p, Num q => Num (JS.Math_min p q)
  | _, _ => NaN
  end.

(** [Math.pow(a, 2)]. *)
Definition Math_pow2 (a : number) : number := mul a a.

(** Truthiness of a number: neither [0] nor [NaN]. *)
Definition truthy (a : number) : bool :=
  match a with
  | Num q => negb (Qeq_bool q 0)
  | NaN => false
  end.

(** The same number (with [NaN] the same as itself). *)
Definition same (a b : number) : Prop :=
  match a, b with
  | Num p, Num q => p == q
  | NaN, NaN => True
  | _, _ => False
  end.

(** Modelled from the spec: the graphics library is not among the sources;
    its vector and angle classes are taken as release r128 has them.
    [THREE.Vector3] keeps its components in the own properties [x], [y],
    [z]. *)
Record Vector3 := { x : number; y : number; z : number }.

(** Modelled from the spec: [THREE.Euler] of the same library, release
    r128.  It keeps its angles in the own properties [_x], [_y], [_z] (next
    to [_order]); [x], [y] and [z] are accessors on the prototype, which read
    and write the underscore fields. *)
Record Euler := { _x : number; _y : number; _z : number }.

Record Object3D := { position : Vector3; rotation : Euler; scale : Vector3 }.

(** A plain object whose properties hold numbers; reading a property that
    is not there gives [undefined], [NaN] in arithmetic. *)
Definition prop (o : gmap string number) (key : string) : number :=
  match o !! key with
  | Some n => n
  | None => NaN
  end.

(** [{ ...v }]: the own enumerable properties of the operand that hold
    numbers. *)
Definition spread_Vector3 (v : Vector3) : gmap string number :=
  {[ "x"%string := x v; "y"%string := y v; "z"%string := z v ]}.
Definition spread_Euler (e : Euler) : gmap string number :=
  {[ "_x"%string := _x e; "_y"%string := _y e; "_z"%string := _z e ]}.

(** The [{ x, y, z }] literals of a target. *)
Record XYZ := { tx : number; ty : number; tz : number }.

(** The [target] argument of [animateModelTo]; an absent property is
    [None]. *)
Record Target := {
  t_position : option XYZ;
  t_rotation : option XYZ;
  t_scale : option number;
  t_duration : option number
}.

(** What the closure [animate] of [animateModelTo] captures. *)
Record Tween := {
  startPos : gmap string number;
  startRot : gmap string number;
  startScale : number;
  startTime : Z;
  duration : number;
  target : Target
}.

(** The easing expression of [animate]. *)
Definition eased (progress : number) : number :=
  if lt progress (Num (1 # 2))
  then mul (mul (Num 2) progress) progress
  else sub (Num 1)
           (div (Math_pow2 (add (mul (Num (- 2)) progress) (Num 2))) (Num 2)).

(** [start + (goal - start) * eased]. *)
Definition interpolate (start goal e : number) : number :=
  add start (mul (sub goal start) e).

(** [progress] of the frame that runs when [Date.now()] reads [now]. *)
Definition progress_at (tw : Tween) (now : Z) : number :=
  let elapsed := Num (inject_Z (now - startTime tw)) in
  Math_min (div elapsed (duration tw)) (Num 1).

(** One run of the closure [animate]: the model afterwards, and whether
    another animation frame was requested. *)
Definition animate (tw : Tween) (now : Z) (model : Object3D) : Object3D * bool :=
  let progress := progress_at tw now in
  let e := eased progress in
  let position1 :=
    match t_position (target tw) with
    | Some p =>
        {| x := interpolate (prop (startPos tw) "x") (tx p) e;
           y := interpolate (prop (startPos tw) "y") (ty p) e;
           z := interpolate (prop (startPos tw) "z") (tz p) e |}
    | None => position model
    end in
  let rotation1 :=
    match t_rotation (target tw) with
    | Some r =>
        {| _x := interpolate (prop (startRot tw) "x") (tx r) e;
           _y := interpolate (prop (startRot tw) "y") (ty r) e;
           _z := interpolate (prop (startRot tw) "z") (tz r) e |}
    | None => rotation model
    end in
  let scale1 :=
    match t_scale (target tw) with
    | Some s =>
        if truthy s then
          let scale := interpolate (startScale tw) s e in
          {| x := scale; y := scale; z := scale |}
        else Animations.scale model
    | None => Animations.scale model
    end in
  ({| position := position1; rotation := rotation1; scale := scale1 |},
   lt progress (Num 1)).

(** [target.duration || 1000]. *)
Definition duration_of (t : Target) : number :=
  match t_duration t with
  | Some d => if truthy d then d else Num 1000
  | None => Num 1000
  end.

(** The constants that [animateModelTo] sets up before the first frame:
    the snapshots of position and rotation, the start scale, the start
    time [t0] and the duration. *)
Definition capture (m : Object3D) (t : Target) (t0 : Z) : Tween :=
  {| startPos := spread_Vector3 (position m);
     startRot := spread_Euler (rotation m);
     startScale := x (scale m);
     startTime := t0;
     duration := duration_of t;
     target := t |}.

(** [animateModelTo(model, target)] up to and including the first,
    synchronous run of [animate]; [t0] and [t1] are the two readings of
    [Date.now()].  [None] when [model] is missing. *)
Definition animateModelTo (model : option Object3D) (t : Target) (t0 t1 : Z)
  : option (Object3D * option Tween) :=
  match model with
  | None => None
  | Some m =>
      let tw := capture m t t0 in
      let '(m1, again) := animate tw t1 m in
      Some (m1, if again then Some tw else None)
  end.

(** The later runs of [animate], one per animation frame, as long as it
    asks for another; [clock] holds the readings of [Date.now()]. *)
Fixpoint run_frames (tw : Tween) (clock : list Z) (m : Object3D) : Object3D * bool :=
  match clock with
  | [] => (m, true)
  | now :: rest =>
      let '(m1, again) := animate tw now m in
      if again then run_frames tw rest m1 else (m1, false)
  end.

(** An entry of [modelLoader.models]. *)
Record ModelEntry := { object : Object3D }.

Record AnimationController := {
  currentSection : string;
  models : gmap string ModelEntry;     (* [this.modelLoader.models] *)
  console : list string;
  pending : list (string * Tween)      (* closures waiting for their next frame,
                                          each with the name of the model it moves *)
}.

(** [modelLoader.getModel(name)]: [this.models[name] || null]. *)
Definition getModel (name : string) (c : AnimationController) : option ModelEntry :=
  models c !! name.

(** The four handlers pass these literals to [animateModelTo]. *)
Definition homeTarget : Target :=
  {| t_position := Some {| tx := Num 0; ty := Num 0; tz := Num 0 |};
     t_rotation := Some {| tx := Num 0; ty := Num 0; tz := Num 0 |};
     t_scale := Some (Num (15 # 10));
     t_duration := Some (Num 1000) |}.
Definition aboutTarget : Target :=
  {| t_position := Some {| tx := Num 2; ty := Num 0; tz := Num (- 2) |};
     t_rotation := Some {| tx := Num (5 # 10); ty := Num (5 # 10); tz := Num 0 |};
     t_scale := Some (Num 1);
     t_duration := Some (Num 1000) |}.
Definition projectsTarget : Target :=
  {| t_position := Some {| tx := Num (- 2); ty := Num 1; tz := Num (- 1) |};
     t_rotation := Some {| tx := Num 0; ty := Num 1; tz := Num 0 |};
     t_scale := Some (Num 1);
     t_duration := Some (Num 1000) |}.
Definition contactTarget : Target :=
  {| t_position := Some {| tx := Num 0; ty := Num (- 1); tz := Num (- 3) |};
     t_rotation := Some {| tx := Num 0; ty := Num 0; tz := Num (5 # 10) |};
     t_scale := Some (Num (8 # 10));
     t_duration := Some (Num 1000) |}.

(** The common shape of [animateHome], [animateAbout], [animateProjects]
    and [animateContact]: look up 'mainTorus' and, if it is there, tween
    its object. *)
Definition animateMainTorus (t : Target) (t0 t1 : Z) (c : AnimationController)
  : AnimationController :=
  match getModel "mainTorus" c with
  | Some mainModel =>
      match animateModelTo (Some (object mainModel)) t t0 t1 with
      | Some (m1, next) =>
          {| currentSection := currentSection c;
             models := <[ "mainTorus"%string := {| object := m1 |} ]> (models c);
             console := console c;
             pending := pending c ++ match next with
                                     | Some tw => [("mainTorus"%string, tw)]
                                     | None => []
                                     end |}
      | None => c
      end
  | None => c
  end.

Definition animateHome := animateMainTorus homeTarget.
Definition animateAbout := animateMainTorus aboutTarget.
Definition animateProjects := animateMainTorus projectsTarget.
Definition animateContact := animateMainTorus contactTarget.

(** [onSectionChange(sectionId)]. *)
Definition onSectionChange (sectionId : string) (t0 t1 : Z) (c : AnimationController)
  : AnimationController :=
  let c1 :=
    {| currentSection := sectionId;
       models := models c;
       console := console c ++ [("Section changed to: " +:+ sectionId)%string];
       pending := pending c |} in
  if String.eqb sectionId "home" then animateHome t0 t1 c1
  else if String.eqb sectionId "about" then animateAbout t0 t1 c1
  else if String.eqb sectionId "projects" then animateProjects t0 t1 c1
  else if String.eqb sectionId "contact" then animateContact t0 t1 c1
  else c1.

(** The torus that modelLoader.js registers as 'mainTorus':
    [createGeometry('torus', 'mainTorus', { position: {0,0,0}, scale: 1.5 })]. *)
Definition mainTorus : Object3D :=
  {| position := {| x := Num 0; y := Num 0; z := Num 0 |};
     rotation := {| _x := Num 0; _y := Num 0; _z := Num 0 |};
     scale := {| x := Num (15 # 10); y := Num (15 # 10); z := Num (15 # 10) |} |}.

End Animations.

(** *** The tween as the specification words it *)
Module TweenSpec.

Local Open Scope Q_scope.

(** Ease-in-out: [2 p^2] below one half, [1 - (-2 p + 2)^2 / 2] from there. *)
Definition easeInOut (p : Q) : Q :=
  if Qlt_le_dec p (1 # 2) then 2 * p * p else 1 - (- 2 * p + 2) * (- 2 * p + 2) / 2.

(** The pose of a section: position, rotation, scale. *)
Definition pose (sectionId : string) : option (Q * Q * Q * (Q * Q * Q) * Q) :=
  if String.eqb sectionId "home" then Some (0, 0, 0, (0, 0, 0), 15 # 10)
  else if String.eqb sectionId "about" then Some (2, 0, - 2, (5 # 10, 5 # 10, 0), 1)
  else if String.eqb sectionId "projects" then Some (- 2, 1, - 1, (0, 1, 0), 1)
  else if String.eqb sectionId "contact" then Some (0, - 1, - 3, (0, 0, 5 # 10), 8 # 10)
  else None.


End TweenSpec.

(** *** The progressive image loader *)
Module ImageLoader.

(** An [img] element of the page. *)
Record Img := {
  dataSrc : option string;             (* the [data-src] attribute, [dataset.src] *)
  src : string;
  classList : gset string;
  onerror : bool;                      (* is an [onerror] handler set *)
  onerrorCalls : nat                   (* how often it has been called *)
}.

Inductive Status := Loading | Loaded | Failed.

(** A [tempImg] made by [loadImage]: the image it preloads for (by its
    index in [this.images]), the value of [fullSrc] it captured, and how
    far its own load has come. *)
Record TempImg := { for_img : nat; fullSrc : option string; status : Status }.

Record Loader := {
  images : list Img;                   (* [this.images], a static node list *)
  observed : gset nat;                 (* the targets the observer watches *)
  tempImages : list TempImg            (* one per call of [loadImage], in order *)
}.

(** [loadImage(img)] up to the assignment [tempImg.src = fullSrc]. *)
Definition loadImage (i : nat) (st : Loader) : Loader :=
  let fullSrc := img ← images st !! i; dataSrc img in
  {| images := images st;
     observed := observed st;
     tempImages := tempImages st ++ [{| for_img := i; fullSrc := fullSrc; status := Loading |}] |}.

(** [this.observer.unobserve(target)]. *)
Definition unobserve (i : nat) (st : Loader) : Loader :=
  {| images := images st;
     observed := observed st ∖ {[ i ]};
     tempImages := tempImages st |}.

(** An [IntersectionObserverEntry]: its target and [isIntersecting]. *)
Record Entry := { entry_target : nat; isIntersecting : bool }.

(** The callback given to [new IntersectionObserver]. *)
Definition onIntersection (entries : list Entry) (st : Loader) : Loader :=
  fold_left
    (fun st entry =>
       if isIntersecting entry
       then unobserve (entry_target entry) (loadImage (entry_target entry) st)
       else st)
    entries st.

(** [loadAllImages()], the path for browsers without the observer. *)
Definition loadAllImages (st : Loader) : Loader :=
  fold_left (fun st i => loadImage i st) (seq 0 (length (images st))) st.

(** [setupImages()] on a document with the [img] elements [doc]. *)
Definition setupImages (doc : list Img) (hasIntersectionObserver : bool) : Loader :=
  let selected := List.filter (fun img => bool_decide (is_Some (dataSrc img))) doc in
  let st := {| images := selected; observed := ∅; tempImages := [] |} in
  match selected with
  | [] => st
  | _ =>
      if hasIntersectionObserver
      then {| images := selected;
              observed := list_to_set (seq 0 (length selected));
              tempImages := [] |}
      else loadAllImages st
  end.

(** A string or [undefined] assigned to [img.src]. *)
Definition toString (v : option string) : string :=
  match v with Some s => s | None => "undefined" end.

Definition set_status (s : Status) (t : TempImg) : TempImg :=
  {| for_img := for_img t; fullSrc := fullSrc t; status := s |}.

(** [tempImg.onload] of the [k]-th temporary image. *)
Definition onload (k : nat) (st : Loader) : Loader :=
  match tempImages st !! k with
  | Some t =>
      {| images :=
           alter (fun img =>
                    {| dataSrc := None;
                       src := toString (fullSrc t);
                       classList := JS.classList_add "loaded" (classList img);
                       onerror := onerror img;
                       onerrorCalls := onerrorCalls img |})
                 (for_img t) (images st);
         observed := observed st;
         tempImages := alter (set_status Loaded) k (tempImages st) |}
  | None => st
  end.

(** [tempImg.onerror] of the [k]-th temporary image. *)
Definition onTempError (k : nat) (st : Loader) : Loader :=
  match tempImages st !! k with
  | Some t =>
      {| images :=
           alter (fun img =>
                    if onerror img
                    then {| dataSrc := dataSrc img; src := src img;
                            classList := classList img; onerror := onerror img;
                            onerrorCalls := S (onerrorCalls img) |}
                    else img)
                 (for_img t) (images st);
         observed := observed st;
         tempImages := alter (set_status Failed) k (tempImages st) |}
  | None => st
  end.

(** What the browser delivers to the loader. *)
Inductive Event :=
| Intersections (entries : list Entry)
| TempLoad (k : nat)
| TempError (k : nat).

Definition isLoading (st : Loader) (k : nat) : bool :=
  match tempImages st !! k with
  | Some t => match status t with Loading => true | _ => false end
  | None => false
  end.

(** The browser's side: a batch of entries names observed targets, each at
    most once (a batch is delivered before the next intersections are
    computed); a temporary image fires [load] or [error] once. *)
Definition deliverable (st : Loader) (ev : Event) : bool :=
  match ev with
  | Intersections entries =>
      forallb (fun e => bool_decide (entry_target e ∈ observed st)) entries
      && bool_decide (NoDup (map entry_target entries))
  | TempLoad k | TempError k => isLoading st k
  end.

Definition handle (st : Loader) (ev : Event) : Loader :=
  match ev with
  | Intersections entries => onIntersection entries st
  | TempLoad k => onload k st
  | TempError k => onTempError k st
  end.

(** The loader after the events [evs]; [None] when the browser could not
    have delivered them. *)
Fixpoint run (evs : list Event) (st : Loader) : option Loader :=
  match evs with
  | [] => Some st
  | ev :: rest => if deliverable st ev then run rest (handle st ev) else None
  end.




End ImageLoader.

(** *** viewer.js, gemstone variant: the colour ramp in double arithmetic *)
Module GemDouble.

Import PrimFloat.
Local Open Scope float_scope.

(** Modelled from the spec: [THREE.Color] of the graphics library (release
    r128), which is not among the sources, with its channels as doubles. *)
Record Color := mkColor { r : float; g : float; b : float }.

(** An integer from 0 to 255 as a number. *)
Definition byte (z : Z) : float := of_uint63 (Uint63.of_Z z).

(** [new THREE.Color(hex)]: [r = (hex >> 16 & 255) / 255],
    [g = (hex >> 8 & 255) / 255], [b = (hex & 255) / 255]. *)
Definition setHex (hex : Z) : Color :=
  {| r := byte (Z.land (Z.shiftr hex 16) 255) / 255;
     g := byte (Z.land (Z.shiftr hex 8) 255) / 255;
     b := byte (Z.land hex 255) / 255 |}.

(** [a.copy(c)]. *)
Definition copy (_ c : Color) : Color := c.

(** [a.lerp(c, alpha)]: [a.r += (c.r - a.r) * alpha], likewise [g], [b]. *)
Definition lerp (a c : Color) (alpha : float) : Color :=
  {| r := r a + (r c - r a) * alpha;
     g := g a + (g c - g a) * alpha;
     b := b a + (b c - b a) * alpha |}.

(** [getGemColor(progress)]. *)
Definition getGemColor (progress : float) : Color :=
  let crystalColor := setHex 0xffffff in
  let rubyColor := setHex 0xff1744 in
  let sapphireColor := setHex 0x2979ff in
  let color := mkColor 1 1 1 in
  if progress <=? 0.5 then
    let t := progress * 2 in
    lerp (copy color crystalColor) rubyColor t
  else
    let t := (progress - 0.5) * 2 in
    lerp (copy color rubyColor) sapphireColor t.

End GemDouble.

(** *** The colour ramp as the specification words it *)
Module GemDoubleSpec.

Import PrimFloat.
Local Open Scope float_scope.

(** Crystal white [0xffffff], ruby red [0xff1744], sapphire blue [0x2979ff]:
    each channel a byte over 255. *)
Definition crystal_white : GemDouble.Color :=
  GemDouble.mkColor (255 / 255) (255 / 255) (255 / 255).
Definition ruby_red : GemDouble.Color :=
  GemDouble.mkColor (255 / 255) (23 / 255) (68 / 255).
Definition sapphire_blue : GemDouble.Color :=
  GemDouble.mkColor (41 / 255) (121 / 255) (255 / 255).

(** Linear interpolation of one channel, as the library computes it, and of
    a colour. *)
Definition mix1 (a c t : float) : float := a + (c - a) * t.
Definition mix (a c : GemDouble.Color) (t : float) : GemDouble.Color :=
  GemDouble.mkColor (mix1 (GemDouble.r a) (GemDouble.r c) t)
                    (mix1 (GemDouble.g a) (GemDouble.g c) t)
                    (mix1 (GemDouble.b a) (GemDouble.b c) t).

(** Every channel of [a] is within [eps] of the channel of [c]. *)
Definition within (eps : float) (a c : GemDouble.Color) : bool :=
  (abs (GemDouble.r a - GemDouble.r c) <=? eps)
  && (abs (GemDouble.g a - GemDouble.g c) <=? eps)
  && (abs (GemDouble.b a - GemDouble.b c) <=? eps).

End GemDoubleSpec.

(** *** viewer.js, gemstone variant: the info panel *)
Module InfoPanel.

(** The [.info-panel] element (its classes) and [#collapse-info-btn] (its
    text), each present or not. *)
Record Panel := {
  infoPanel : option (gset string);
  collapseBtn : option string
}.

(** The [click] listener of the collapse button; it is attached only
    [if (collapseBtn && infoPanel)]. *)
Definition onCollapseClick (p : Panel) : Panel :=
  match collapseBtn p, infoPanel p with
  | Some _, Some cl =>
      let cl1 := JS.classList_toggle "collapsed" cl in
      {| infoPanel := Some cl1;
         collapseBtn := Some (if JS.classList_contains "collapsed" cl1
                              then "+"%string else "−"%string) |}
  | _, _ => p
  end.

(** [n] clicks in a row. *)
Fixpoint clicks (n : nat) (p : Panel) : Panel :=
  match n with
  | O => p
  | S k => clicks k (onCollapseClick p)
  end.

End InfoPanel.

(** ** Part II: the properties *)

Local Open Scope Q_scope.

Lemma Math_max_lower a b : a <= JS.Math_max a b.
Proof. unfold JS.Math_max. destruct (Qlt_le_dec a b); lra. Qed.

Lemma Math_max_min_upper lo hi x : lo <= hi -> JS.Math_max lo (JS.Math_min hi x) <= hi.
Proof.
  intros Hle. unfold JS.Math_max, JS.Math_min.
  destruct (Qlt_le_dec x hi); destruct (Qlt_le_dec lo _); lra.
Qed.


(** *** The gemstone viewer *)

Section GemColor.

Import GemViewer.

Lemma getGemColor_low p :
  p <= 1 # 2 ->
  getGemColor p = Three.lerp (Three.setHex 0xffffff) (Three.setHex 0xff1744) (p * 2).
Proof.
  intros Hp. unfold getGemColor.
  destruct (Qle_bool p (1 # 2)) eqn:E; [reflexivity|].
  apply Qle_bool_iff in Hp. congruence.
Qed.

Lemma getGemColor_high p :
  1 # 2 < p ->
  getGemColor p = Three.lerp (Three.setHex 0xff1744) (Three.setHex 0x2979ff) ((p - (1 # 2)) * 2).
Proof.
  intros Hp. unfold getGemColor.
  destruct (Qle_bool p (1 # 2)) eqn:E; [|reflexivity].
  apply Qle_bool_iff in E. lra.
Qed.

End GemColor.

(** *** The gemstone viewer: the colour ramp in double arithmetic *)

Section GemColorDouble.

Import PrimFloat.
Import GemDouble.
Local Open Scope float_scope.

(** C1, as the code has it: for every double [p], [getGemColor p] is,
    channel by channel, [a + (c - a) * t] in double arithmetic, from crystal
    white to ruby red with [t = p * 2] when [p <= 0.5] and from ruby red to
    sapphire blue with [t = (p - 0.5) * 2] otherwise.  [getGemColor 0] is
    white.  [getGemColor 0.5] is ruby in the red channel and one unit in the
    last place off ruby in green and blue; [getGemColor 1] is sapphire in
    green and blue and one unit in the last place below it in red.  At 0.5
    the branches meet up to rounding: the second branch's formula gives ruby
    there, and at the two doubles next to 0.5 every channel is within
    [2^-52] of its value at 0.5. *)
Theorem getGemColor_double_lerp (p : float) :
  ((p <=? 0.5) = true ->
   getGemColor p
   = GemDoubleSpec.mix GemDoubleSpec.crystal_white GemDoubleSpec.ruby_red (p * 2)) /\
  ((p <=? 0.5) = false ->
   getGemColor p
   = GemDoubleSpec.mix GemDoubleSpec.ruby_red GemDoubleSpec.sapphire_blue ((p - 0.5) * 2)) /\
  getGemColor 0 = GemDoubleSpec.crystal_white /\
  getGemColor 0.5
  = {| r := r GemDoubleSpec.ruby_red;
       g := next_up (g GemDoubleSpec.ruby_red);
       b := next_down (b GemDoubleSpec.ruby_red) |} /\
  getGemColor 1
  = {| r := next_down (r GemDoubleSpec.sapphire_blue);
       g := g GemDoubleSpec.sapphire_blue;
       b := b GemDoubleSpec.sapphire_blue |} /\
  GemDoubleSpec.mix GemDoubleSpec.ruby_red GemDoubleSpec.sapphire_blue ((0.5 - 0.5) * 2)
  = GemDoubleSpec.ruby_red /\
  GemDoubleSpec.within 0x1p-52 (getGemColor (next_down 0.5)) (getGemColor 0.5) = true /\
  GemDoubleSpec.within 0x1p-52 (getGemColor (next_up 0.5)) (getGemColor 0.5) = true.
Proof.
  split; [|split].
  - intros Hp. unfold getGemColor. rewrite Hp. reflexivity.
  - intros Hp. unfold getGemColor. rewrite Hp. reflexivity.
  - repeat split; vm_compute; reflexivity.
Qed.

Lemma getGemColor_double_lerp_witness :
  getGemColor 0.25
  = GemDoubleSpec.mix GemDoubleSpec.crystal_white GemDoubleSpec.ruby_red (0.25 * 2).
Proof.
  destruct (getGemColor_double_lerp 0.25) as [Hlow _].
  apply Hlow. reflexivity.
Defined.

(** In double arithmetic the ramp misses ruby at 0.5 (green and blue) and
    sapphire at 1 (red): C1 as stated, with [getGemColor 0.5] ruby and
    [getGemColor 1] sapphire, fails. *)
Lemma getGemColor_half_is_not_ruby :
  (g (getGemColor 0.5) =? g (setHex 0xff1744)) = false /\
  (b (getGemColor 0.5) =? b (setHex 0xff1744)) = false /\
  (r (getGemColor 1) =? r (setHex 0x2979ff)) = false /\
  g (getGemColor 0.5) = 0x1.7171717171718p-4 /\
  g (setHex 0xff1744) = 0x1.7171717171717p-4.
Proof. repeat split; vm_compute; reflexivity. Qed.

End GemColorDouble.

Section GemScroll.

Import GemViewer.

Lemma updateColorIndicator_scrollProgress p v :
  scrollProgress (updateColorIndicator p v) = scrollProgress v.
Proof. unfold updateColorIndicator. destruct (indicator v); reflexivity. Qed.

Lemma updateGemHue_scrollProgress p v :
  scrollProgress (updateGemHue p v) = scrollProgress v.
Proof. unfold updateGemHue. rewrite updateColorIndicator_scrollProgress. reflexivity. Qed.

Lemma createGemMaterials_scrollProgress n :
  forall v, scrollProgress (createGemMaterials n v) = scrollProgress v.
Proof. induction n as [|n IH]; intros v; cbn; [reflexivity|]. rewrite IH. reflexivity. Qed.

(** One handled wheel event with Shift held lands in [0,1] whatever the
    previous value was. *)
Lemma onWheel_shift_clamped e v :
  shiftKey e = true -> 0 <= scrollProgress (onWheel e v) <= 1.
Proof.
  intros Hs. unfold onWheel. rewrite Hs. rewrite updateGemHue_scrollProgress.
  cbn [scrollProgress]. split.
  - apply Math_max_lower.
  - apply Math_max_min_upper. lra.
Qed.

Lemma handle_clamped v ev :
  0 <= scrollProgress v <= 1 -> 0 <= scrollProgress (handle v ev) <= 1.
Proof.
  intros Hv. destruct ev as [e|n|]; cbn [handle].
  - unfold dispatchWheel. destruct (canvasContainer v); [|exact Hv].
    destruct (shiftKey e) eqn:Hs.
    + apply onWheel_shift_clamped, Hs.
    + unfold onWheel. rewrite Hs. exact Hv.
  - unfold onModelLoaded. rewrite updateGemHue_scrollProgress, createGemMaterials_scrollProgress.
    exact Hv.
  - unfold loadDefaultGeometry.
    rewrite updateGemHue_scrollProgress, createGemMaterials_scrollProgress. exact Hv.
Qed.

Lemma run_clamped evs :
  forall v, 0 <= scrollProgress v <= 1 -> 0 <= scrollProgress (run evs v) <= 1.
Proof.
  induction evs as [|ev evs IH]; intros v Hv; [exact Hv|].
  cbn. apply IH, handle_clamped, Hv.
Qed.

(** C2: starting from the constructor's value 0, the scroll progress is in
    [0,1] after every sequence of wheel events (interleaved at will with
    the callbacks of the model loader). *)
Theorem scrollProgress_stays_clamped ind container (evs : list Event) :
  0 <= scrollProgress (run evs (new_ModelViewer ind container)) <= 1.
Proof. apply run_clamped. cbn. lra. Qed.

End GemScroll.

(** *** The iridescence viewer *)

Section FilmThickness.

Import IridescenceViewer.

Lemma updateThicknessIndicator_keeps t v :
  viewerThickness (updateThicknessIndicator t v) = viewerThickness v /\
  iridescenceMaterials (updateThicknessIndicator t v) = iridescenceMaterials v.
Proof. unfold updateThicknessIndicator. destruct (indicator v); split; reflexivity. Qed.

Lemma updateFilmThickness_thickness t v : viewerThickness (updateFilmThickness t v) = t.
Proof.
  unfold updateFilmThickness.
  rewrite (proj1 (updateThicknessIndicator_keeps _ _)). reflexivity.
Qed.

Lemma createIridescenceMaterials_thickness n :
  forall v, viewerThickness (createIridescenceMaterials n v) = viewerThickness v.
Proof. induction n as [|n IH]; intros v; cbn; [reflexivity|]. rewrite IH. reflexivity. Qed.

Lemma createIridescenceMaterials_mapped n :
  forall v, all_mapped v -> all_mapped (createIridescenceMaterials n v).
Proof.
  induction n as [|n IH]; intros v Hv; cbn; [exact Hv|].
  apply IH. unfold all_mapped in *. cbn. apply Forall_app. split; [exact Hv|].
  constructor; [eexists; reflexivity | constructor].
Qed.

Lemma updateFilmThickness_sets t v :
  all_mapped v ->
  Forall (has_thickness t) (iridescenceMaterials (updateFilmThickness t v)).
Proof.
  unfold all_mapped, updateFilmThickness. intros Hv.
  rewrite (proj2 (updateThicknessIndicator_keeps _ _)). cbn [iridescenceMaterials].
  induction Hv as [|m ms [fm Hm] _ IH]; cbn; constructor; [|exact IH].
  rewrite Hm. eexists. split; reflexivity.
Qed.

Lemma updateFilmThickness_mapped t v : all_mapped v -> all_mapped (updateFilmThickness t v).
Proof.
  intros Hv. pose proof (updateFilmThickness_sets t v Hv) as H.
  unfold all_mapped. eapply Forall_impl; [exact H|].
  intros m (fm & Hm & _). rewrite Hm. eexists; reflexivity.
Qed.

Lemma handle_film_inv v ev : film_inv v -> film_inv (handle v ev).
Proof.
  intros [Hr Hm]. destruct ev as [e|n|]; cbn [handle].
  - unfold dispatchWheel. destruct (canvasContainer v); [|split; assumption].
    unfold onWheel. destruct (shiftKey e); [|split; assumption].
    split.
    + rewrite updateFilmThickness_thickness. cbn [viewerThickness]. split.
      * apply Math_max_lower.
      * apply Math_max_min_upper. lra.
    + apply updateFilmThickness_mapped. exact Hm.
  - unfold onModelLoaded. unfold film_inv, all_mapped.
    destruct (updateThicknessIndicator_keeps
                (viewerThickness (createIridescenceMaterials n v))
                (createIridescenceMaterials n v)) as [-> ->].
    rewrite createIridescenceMaterials_thickness. split; [exact Hr|].
    apply createIridescenceMaterials_mapped, Hm.
  - unfold loadDefaultGeometry. unfold film_inv, all_mapped.
    destruct (updateThicknessIndicator_keeps
                (viewerThickness (createIridescenceMaterials (1 + 4) v))
                (createIridescenceMaterials (1 + 4) v)) as [-> ->].
    rewrite createIridescenceMaterials_thickness. split; [exact Hr|].
    apply createIridescenceMaterials_mapped, Hm.
Qed.

Lemma run_film_inv evs : forall v, film_inv v -> film_inv (run evs v).
Proof.
  induction evs as [|ev evs IH]; intros v Hv; [exact Hv|].
  cbn. apply IH, handle_film_inv, Hv.
Qed.

Lemma new_film_inv ind container : film_inv (new_ModelViewer ind container).
Proof. split; [cbn; lra | constructor]. Qed.

(** C9: in every state [v] the iridescence viewer reaches from its
    constructor (wheel events, with the loader's callbacks in between), the
    film thickness is within [200, 1000]; a wheel event without Shift
    leaves it unchanged; and [updateFilmThickness t] leaves every material
    of [iridescenceMaterials] with [fresnelMap.filmThickness] equal to
    [t]. *)
Theorem filmThickness_clamped_and_propagated ind container (evs : list Event) :
  200 <= viewerThickness (run evs (new_ModelViewer ind container)) <= 1000 /\
  (forall e, shiftKey e = false ->
     viewerThickness (dispatchWheel e (run evs (new_ModelViewer ind container)))
     = viewerThickness (run evs (new_ModelViewer ind container))) /\
  (forall t,
     Forall (has_thickness t)
       (iridescenceMaterials
          (updateFilmThickness t (run evs (new_ModelViewer ind container))))).
Proof.
  destruct (run_film_inv evs _ (new_film_inv ind container)) as [Hr Hm].
  split; [exact Hr|]. split.
  - intros e He. unfold dispatchWheel, onWheel. rewrite He.
    destruct (canvasContainer _); reflexivity.
  - intros t. apply updateFilmThickness_sets, Hm.
Qed.

End FilmThickness.

Example film_wheel_up_then_down :
  let up := {| IridescenceViewer.shiftKey := true; IridescenceViewer.deltaY := 3 |} in
  let plain := {| IridescenceViewer.shiftKey := false; IridescenceViewer.deltaY := 3 |} in
  let v := IridescenceViewer.run
             (IridescenceViewer.ModelFailed
                :: IridescenceViewer.Wheel plain
                :: repeat (IridescenceViewer.Wheel up) 40)
             (IridescenceViewer.new_ModelViewer (Some ""%string) true) in
  (IridescenceViewer.viewerThickness v == 1000) /\
  IridescenceViewer.indicator v = Some "1000nm"%string /\
  length (IridescenceViewer.iridescenceMaterials v) = 5%nat.
Proof. vm_compute. repeat split; congruence. Qed.


(** *** js/viewer.js: the model-missing fallback *)

Section Fallback.

Import Viewer.

Lemma fire_loadingScreen l :
  forall v,
    loadingScreen (fold_left fire l v)
    = fold_left (fun cl (_ : Z * Task) => JS.classList_add "hidden" cl) l (loadingScreen v).
Proof.
  induction l as [|[d []] l IH]; intros v; [reflexivity|].
  cbn [fold_left]. rewrite IH. reflexivity.
Qed.

Lemma hidden_stays (l : list (Z * Task)) :
  forall cl : gset string,
    "hidden" ∈ cl ->
    "hidden" ∈ fold_left (fun cl (_ : Z * Task) => JS.classList_add "hidden" cl) l cl.
Proof.
  induction l as [|t l IH]; intros cl Hcl; [exact Hcl|].
  cbn [fold_left]. apply IH. unfold JS.classList_add. set_solver.
Qed.

(** Once its delay has passed, a pending [HideLoadingScreen] has run. *)
Lemma advance_hides dt v d :
  (d, HideLoadingScreen) ∈ timers v -> (d <= now v + dt)%Z -> (0 <= dt)%Z ->
  "hidden" ∈ loadingScreen (advance dt v).
Proof.
  intros Hin Hd Hdt. unfold advance. rewrite fire_loadingScreen. cbn [loadingScreen].
  rewrite Z.max_r by exact Hdt.
  assert (Hdue : (d, HideLoadingScreen) ∈ List.filter (due (now v + dt)) (timers v)).
  { apply list_elem_of_In, filter_In. split; [apply list_elem_of_In, Hin|].
    unfold due. cbn. apply Z.leb_le, Hd. }
  revert Hdue. generalize (List.filter (due (now v + dt)) (timers v)) (loadingScreen v).
  intros l. induction l as [|t l IH]; intros cl Hl.
  - inversion Hl.
  - cbn [fold_left]. apply elem_of_cons in Hl as [<-|Hl].
    + apply hidden_stays. unfold JS.classList_add. set_solver.
    + apply IH, Hl.
Qed.

(** Before its delay has passed, a timeout set last changes nothing. *)
Lemma advance_before dt v task delay :
  (Z.max 0 dt < delay)%Z ->
  loadingScreen (advance dt (setTimeout task delay v)) = loadingScreen (advance dt v).
Proof.
  intros Hdt. unfold advance. rewrite !fire_loadingScreen.
  cbn [timers setTimeout now loadingScreen].
  rewrite List.filter_app. cbn [List.filter].
  replace (due (now v + Z.max 0 dt) ((now v + delay)%Z, task)) with false.
  - rewrite app_nil_r. reflexivity.
  - symmetry. unfold due. cbn. apply Z.leb_gt. lia.
Qed.

Lemma defaultGeometry_meshes :
  exists children,
    defaultGeometry = Group children /\
    length (List.filter isMesh children) = 5%nat /\
    Forall (fun o => isMesh o = true ->
                     exists geometry position cast receive,
                       o = Mesh geometry gemstoneMaterial position cast receive) children.
Proof.
  eexists. split; [reflexivity|]. split; [reflexivity|].
  cbn. repeat constructor; intros H; try discriminate H; repeat eexists.
Qed.

(** C4: when the loader's error callback fires, the viewer takes the
    procedurally built placeholder group as its model and adds it to the
    scene, and the loading screen gets the class 'hidden' once 1000 ms have
    passed (and not earlier on account of this callback); the text is the
    fallback's, not the success path's 'Model Loaded!', the progress bar is
    not touched, and no 500 ms timeout is set. *)
Theorem loadModel_error_falls_back (v : ModelViewer) :
  model (onError v) = Some defaultGeometry /\
  scene (onError v) = scene v ++ [defaultGeometry] /\
  (exists children,
     defaultGeometry = Group children /\
     length (List.filter isMesh children) = 5%nat) /\
  loadingScreen (onError v) = loadingScreen v /\
  timers (onError v) = timers v ++ [((now v + 1000)%Z, HideLoadingScreen)] /\
  (forall dt, (1000 <= dt)%Z -> "hidden" ∈ loadingScreen (advance dt (onError v))) /\
  (forall dt, (dt < 1000)%Z ->
     loadingScreen (advance dt (onError v)) = loadingScreen (advance dt v)) /\
  loadingText (onError v) = "Loading default geometry..."%string /\
  loadingText (onError v) <> "Model Loaded!"%string /\
  progressBarWidth (onError v) = progressBarWidth v /\
  (forall object, loadingText (onLoad object v) = "Model Loaded!"%string /\
                  progressBarWidth (onLoad object v) = Some "100%"%string /\
                  model (onLoad object v) = Some (applyGemstone object)).
Proof.
  split; [reflexivity|]. split; [reflexivity|]. split.
  { destruct defaultGeometry_meshes as (cs & H1 & H2 & _). eauto. }
  split; [reflexivity|]. split; [reflexivity|]. split.
  { intros dt Hdt. apply (advance_hides dt (onError v) (now v + 1000)%Z).
    - cbn. set_solver.
    - cbn. lia.
    - lia. }
  split.
  { intros dt Hdt. unfold onError. rewrite advance_before by lia.
    unfold advance. rewrite !fire_loadingScreen. reflexivity. }
  split; [reflexivity|]. split; [discriminate|]. split; [reflexivity|].
  intros object. repeat split.
Qed.

End Fallback.

Example fallback_timeline :
  let v := Viewer.onError (Viewer.new_ModelViewer 0) in
  bool_decide ("hidden" ∈ Viewer.loadingScreen (Viewer.advance 999 v)) = false /\
  bool_decide ("hidden" ∈ Viewer.loadingScreen (Viewer.advance 1000 v)) = true /\
  Viewer.timers (Viewer.advance 1000 v) = [].
Proof. vm_compute. repeat split. Qed.


(** *** main.js: the mobile menu *)

Section Menu.

Import Main.

Lemma classList_toggle_involutive c (l : gset string) :
  JS.classList_toggle c (JS.classList_toggle c l) = l.
Proof.
  unfold JS.classList_toggle, JS.classList_contains, JS.classList_add, JS.classList_remove.
  destruct (bool_decide (c ∈ l)) eqn:E.
  - apply bool_decide_eq_true in E.
    rewrite bool_decide_eq_false_2 by set_solver.
    apply set_eq. intros x. destruct (decide (x = c)); set_solver.
  - apply bool_decide_eq_false in E.
    rewrite bool_decide_eq_true_2 by set_solver.
    set_solver.
Qed.

Lemma classList_remove_absent c (l : gset string) : c ∉ JS.classList_remove c l.
Proof. unfold JS.classList_remove. set_solver. Qed.

(** C8: two burger clicks in a row give back the page as it was (in
    particular the 'active' class of the nav element and the 'toggle' class
    of the burger), and after a click on a nav link the nav element is
    without 'active' and the burger without 'toggle', whatever the state
    before. *)
Theorem burger_toggle_involution_and_link_closes (pg : Page) :
  onBurgerClick (onBurgerClick pg) = pg /\
  ("active" ∉ nav (state_of (onNavLinkClick pg))) /\
  (forall cl, burger (state_of (onNavLinkClick pg)) = Some cl -> "toggle" ∉ cl) /\
  (forall cl, burger pg = Some cl ->
     onNavLinkClick pg
     = Normal {| burger := Some (JS.classList_remove "toggle" cl);
                 nav := JS.classList_remove "active" (nav pg);
                 navLinks := navLinks pg; sections := sections pg;
                 mainNav := mainNav pg; contactForm := contactForm pg |}).
Proof.
  destruct pg as [[b|] n ls ss mn cf]; cbn.
  - rewrite !classList_toggle_involutive. split; [reflexivity|].
    split; [apply classList_remove_absent|]. split.
    + intros cl [= <-]. apply classList_remove_absent.
    + intros cl [= <-]. reflexivity.
  - split; [reflexivity|]. split; [apply classList_remove_absent|].
    split; intros cl H; discriminate H.
Qed.

End Menu.

Example burger_opens_then_closes :
  let pg := {| Main.burger := Some ∅; Main.nav := {[ "nav-links"%string ]};
               Main.navLinks := []; Main.sections := []; Main.mainNav := ∅;
               Main.contactForm := None |} in
  bool_decide ("active" ∈ Main.nav (Main.onBurgerClick pg)) = true /\
  bool_decide ("active" ∈ Main.nav (Main.onBurgerClick (Main.onBurgerClick pg))) = false /\
  bool_decide ("active" ∈ Main.nav (Main.state_of (Main.onNavLinkClick (Main.onBurgerClick pg))))
  = false.
Proof. vm_compute. repeat split. Qed.

(** *** main.js: the active nav link *)

Section ActiveLink.

Import Main.

(** The loop over the sections computes the id of the last section
    reached, and leaves the initial empty string when none is. *)
Lemma currentSection_lastReached y secs :
  currentSection y secs
  = match NavSpec.lastReached y secs with
    | Some s => id s
    | None => Some ""%string
    end.
Proof.
  unfold currentSection, NavSpec.lastReached.
  induction secs as [|s secs IH] using rev_ind; [reflexivity|].
  rewrite fold_left_app, List.filter_app. cbn [fold_left List.filter].
  change (NavSpec.reached y s) with (Qle_bool (offsetTop s - 200) y).
  destruct (Qle_bool (offsetTop s - 200) y).
  - rewrite last_snoc. reflexivity.
  - rewrite app_nil_r. exact IH.
Qed.

(** The href that the scroll position [y] selects. *)
Lemma markLink_active current link :
  href (markLink current link) = href link /\
  ("active" ∈ classList (markLink current link)
   <-> href link = Some ("#" +:+ toString current)%string) /\
  (forall c, c <> "active"%string ->
     (c ∈ classList (markLink current link) <-> c ∈ classList link)).
Proof.
  unfold markLink, JS.classList_add, JS.classList_remove.
  destruct (bool_decide _) eqn:E; cbn.
  - apply bool_decide_eq_true in E. split; [reflexivity|]. split; [set_solver|].
    intros c Hc. set_solver.
  - apply bool_decide_eq_false in E. split; [reflexivity|]. split; [set_solver|].
    intros c Hc. set_solver.
Qed.

(** C5, as the code has it: after a scroll event at offset [y], a nav link
    carries 'active' exactly when its href is '#' followed by the id of the
    last section (in document order) with [y >= offsetTop - 200]; when no
    section satisfies this, [current] is still the empty string, so
    exactly the links whose href is the bare '#' carry 'active'.  Hrefs and
    all other classes of the links are as before. *)
Theorem onScroll_active_links (y : Q) (pg : Page) :
  Forall2
    (fun link link' =>
       href link' = href link /\
       ("active" ∈ classList link' <->
        href link = Some (match NavSpec.lastReached y (sections pg) with
                          | Some s => NavSpec.activeHref s
                          | None => "#"%string
                          end)) /\
       (forall c, c <> "active"%string -> (c ∈ classList link' <-> c ∈ classList link)))
    (navLinks pg) (navLinks (onScroll y pg)).
Proof.
  cbn [onScroll navLinks]. rewrite currentSection_lastReached.
  apply Forall2_fmap_r, Forall_Forall2_diag, Forall_forall. intros link _.
  pose proof (markLink_active
                (match NavSpec.lastReached y (sections pg) with
                 | Some s => id s
                 | None => Some ""%string
                 end) link) as H.
  unfold NavSpec.activeHref.
  destruct (NavSpec.lastReached y (sections pg)); exact H.
Qed.

(** With no section reached, a nav link whose href is '#' is marked
    active: the last clause of C5 as stated fails on this page. *)
Lemma onScroll_no_section_marks_hash_link :
  NavSpec.lastReached 0
    [ {| offsetTop := 900; clientHeight := 600; id := Some "about"%string |} ] = None /\
  map (fun link => bool_decide ("active" ∈ classList link))
      (navLinks
         (onScroll 0
            {| burger := None; nav := ∅;
               navLinks := [ {| href := Some "#"%string; classList := ∅ |};
                             {| href := Some "#about"%string; classList := ∅ |} ];
               sections := [ {| offsetTop := 900; clientHeight := 600;
                                id := Some "about"%string |} ];
               mainNav := ∅; contactForm := None |}))
  = [true; false].
Proof. split; vm_compute; reflexivity. Qed.

Example scroll_marks_about :
  map (fun link => bool_decide ("active" ∈ classList link))
      (navLinks
         (onScroll 450
            {| burger := None; nav := ∅;
               navLinks := [ {| href := Some "#home"%string; classList := {[ "active"%string ]} |};
                             {| href := Some "#about"%string; classList := ∅ |};
                             {| href := None; classList := ∅ |} ];
               sections := [ {| offsetTop := 0; clientHeight := 600; id := Some "home"%string |};
                             {| offsetTop := 600; clientHeight := 600; id := Some "about"%string |};
                             {| offsetTop := 1200; clientHeight := 600; id := Some "projects"%string |} ];
               mainNav := ∅; contactForm := None |}))
  = [false; true; false].
Proof. vm_compute. reflexivity. Qed.

End ActiveLink.

(** *** main.js: the contact form *)

Section Contact.

Import Main.

(** C6: on every submit event of the contact form the handler prevents the
    default submission, reads the three field values, logs them, shows the
    alert and resets the form, in this order; no effect of the event is a
    network request, and the fields are back at their defaults. *)
Theorem contact_submit_is_local (f : ContactForm) :
  fst (dispatchSubmit f)
  = [ PreventDefault;
      ConsoleLog "Form submitted:"
                 {| fd_name := value (name f); fd_email := value (email f);
                    fd_message := value (message f) |};
      Alert "Thank you for your message! I will get back to you soon.";
      FormReset ] /\
  Forall (fun e => isNetwork e = false) (fst (dispatchSubmit f)) /\
  value (name (snd (dispatchSubmit f))) = defaultValue (name f) /\
  value (email (snd (dispatchSubmit f))) = defaultValue (email f) /\
  value (message (snd (dispatchSubmit f))) = defaultValue (message f).
Proof.
  split; [reflexivity|]. split; [|repeat split].
  cbn. repeat constructor.
Qed.

Example contact_submit_example :
  dispatchSubmit
    {| name := {| value := "Ada"; defaultValue := "" |};
       email := {| value := "ada@example.org"; defaultValue := "" |};
       message := {| value := "Hello"; defaultValue := "" |};
       action := "/" |}
  = ([ PreventDefault;
       ConsoleLog "Form submitted:"
                  {| fd_name := "Ada"; fd_email := "ada@example.org"; fd_message := "Hello" |};
       Alert "Thank you for your message! I will get back to you soon.";
       FormReset ],
     {| name := {| value := ""; defaultValue := "" |};
        email := {| value := ""; defaultValue := "" |};
        message := {| value := ""; defaultValue := "" |};
        action := "/" |}).
Proof. reflexivity. Qed.

End Contact.


(** *** animations.js: easing *)

Section Easing.

Import Animations.

Lemma eased_Num p : eased (Num p) = Num (TweenSpec.easeInOut p).
Proof.
  unfold eased, TweenSpec.easeInOut, lt.
  destruct (Qlt_le_dec p (1 # 2)); reflexivity.
Qed.

Lemma half_of (a : Q) : a / 2 == a * (1 # 2).
Proof. reflexivity. Qed.

Lemma easeInOut_0 : TweenSpec.easeInOut 0 == 0.
Proof. reflexivity. Qed.

Lemma easeInOut_1 : TweenSpec.easeInOut 1 == 1.
Proof. reflexivity. Qed.

Lemma easeInOut_half : TweenSpec.easeInOut (1 # 2) == 1 # 2.
Proof. reflexivity. Qed.

Lemma easeInOut_low p : p < 1 # 2 -> TweenSpec.easeInOut p == 2 * p * p.
Proof.
  intros Hp. unfold TweenSpec.easeInOut. destruct (Qlt_le_dec p (1 # 2)); [reflexivity|lra].
Qed.

Lemma easeInOut_high p :
  1 # 2 <= p -> TweenSpec.easeInOut p == 1 - (2 - 2 * p) * (2 - 2 * p) * (1 # 2).
Proof.
  intros Hp. unfold TweenSpec.easeInOut. destruct (Qlt_le_dec p (1 # 2)); [lra|].
  rewrite half_of. ring.
Qed.

(** Nondecreasing on the unit interval. *)
Lemma easeInOut_monotone p q :
  0 <= p -> p <= q -> q <= 1 -> TweenSpec.easeInOut p <= TweenSpec.easeInOut q.
Proof.
  intros H0 Hpq H1.
  destruct (Qlt_le_dec p (1 # 2)) as [Hp|Hp]; destruct (Qlt_le_dec q (1 # 2)) as [Hq|Hq].
  - rewrite (easeInOut_low p Hp), (easeInOut_low q Hq). nra.
  - rewrite (easeInOut_low p Hp), (easeInOut_high q Hq). nra.
  - lra.
  - rewrite (easeInOut_high p Hp), (easeInOut_high q Hq). nra.
Qed.

(** Continuous at one half, where both branches give one half. *)
Lemma easeInOut_continuous_at_half eps :
  0 < eps ->
  exists delta, 0 < delta /\
    forall q, Qabs (q - (1 # 2)) < delta ->
              Qabs (TweenSpec.easeInOut q - TweenSpec.easeInOut (1 # 2)) < eps.
Proof.
  intros Heps.
  exists (if Qlt_le_dec eps 1 then eps * (1 # 3) else 1 # 3).
  split; [destruct (Qlt_le_dec eps 1); lra|].
  intros q Hq.
  assert (Hd : Qabs (q - (1 # 2)) < 1 # 3 /\ 3 * Qabs (q - (1 # 2)) < eps).
  { destruct (Qlt_le_dec eps 1); split; lra. }
  clear Hq. destruct Hd as [Hd1 Hd2].
  apply Qabs_Qlt_condition in Hd1.
  rewrite easeInOut_half.
  destruct (Qlt_le_dec q (1 # 2)) as [Hlow|Hhigh].
  - rewrite (easeInOut_low q Hlow).
    rewrite (Qabs_neg (q - (1 # 2))) in Hd2 by lra.
    apply Qabs_Qlt_condition. split; nra.
  - rewrite (easeInOut_high q Hhigh).
    rewrite (Qabs_pos (q - (1 # 2))) in Hd2 by lra.
    apply Qabs_Qlt_condition. split; nra.
Qed.

(** X1: the ease-in-out expression of [animate] is [TweenSpec.easeInOut] on
    numbers; it maps 0 to 0 and 1 to 1, is continuous at one half and is
    nondecreasing on the unit interval. *)
Theorem eased_is_ease_in_out :
  (forall p, eased (Num p) = Num (TweenSpec.easeInOut p)) /\
  TweenSpec.easeInOut 0 == 0 /\
  TweenSpec.easeInOut 1 == 1 /\
  (forall eps, 0 < eps ->
     exists delta, 0 < delta /\
       forall q, Qabs (q - (1 # 2)) < delta ->
                 Qabs (TweenSpec.easeInOut q - TweenSpec.easeInOut (1 # 2)) < eps) /\
  (forall p q, 0 <= p -> p <= q -> q <= 1 ->
               TweenSpec.easeInOut p <= TweenSpec.easeInOut q).
Proof.
  split; [exact eased_Num|]. split; [exact easeInOut_0|]. split; [exact easeInOut_1|].
  split; [exact easeInOut_continuous_at_half|exact easeInOut_monotone].
Qed.

End Easing.

(** *** animations.js: the tween *)

Section Tween.

Import Animations.

(** Once the duration has elapsed, [progress] is 1 and so is the eased
    value. *)
Lemma eased_final tw now d :
  duration tw = Num d -> 0 < d -> d <= inject_Z (now - startTime tw) ->
  exists e, eased (progress_at tw now) = Num e /\ e == 1 /\
            lt (progress_at tw now) (Num 1) = false.
Proof.
  intros Hd Hpos Hel. unfold progress_at. rewrite Hd. cbn [div].
  destruct (Qeq_bool d 0) eqn:E; [apply Qeq_bool_iff in E; lra|].
  cbn [Math_min]. set (r := inject_Z (now - startTime tw) / d).
  assert (Hr : 1 <= r).
  { unfold r. apply Qle_shift_div_l; lra. }
  assert (Hm : JS.Math_min r 1 == 1).
  { unfold JS.Math_min. destruct (Qlt_le_dec 1 r); lra. }
  exists (TweenSpec.easeInOut (JS.Math_min r 1)). split; [apply eased_Num|]. split.
  - rewrite easeInOut_high by lra. rewrite Hm. reflexivity.
  - cbn [lt]. destruct (Qlt_le_dec (JS.Math_min r 1) 1); [lra|reflexivity].
Qed.

(** X2: in the frame that runs once the elapsed time has reached the
    duration (a positive number), [progress] is 1, the eased value is 1 and
    no further animation frame is requested: the tween ends there. *)
Theorem animate_last_frame tw now m d :
  duration tw = Num d -> 0 < d -> d <= inject_Z (now - startTime tw) ->
  same (progress_at tw now) (Num 1) /\
  same (eased (progress_at tw now)) (Num 1) /\
  snd (animate tw now m) = false.
Proof.
  intros Hd Hpos Hel.
  destruct (eased_final tw now d Hd Hpos Hel) as (e & He & He1 & Hlt).
  split; [|split].
  - unfold progress_at in *. rewrite Hd in *. cbn [div] in *.
    destruct (Qeq_bool d 0) eqn:E; [apply Qeq_bool_iff in E; lra|].
    cbn [Math_min same].
    assert (Hr : 1 <= inject_Z (now - startTime tw) / d) by (apply Qle_shift_div_l; lra).
    unfold JS.Math_min. destruct (Qlt_le_dec 1 _); lra.
  - rewrite He. exact He1.
  - unfold animate. cbn [snd]. exact Hlt.
Qed.

Lemma animate_last_frame_witness :
  same (progress_at (capture mainTorus contactTarget 40) 1040) (Num 1) /\
  snd (animate (capture mainTorus contactTarget 40) 1040 mainTorus) = false.
Proof.
  destruct (animate_last_frame (capture mainTorus contactTarget 40) 1040 mainTorus 1000)
    as (Hp & _ & Hend); try reflexivity; try discriminate.
  split; assumption.
Defined.

(** The snapshot of the rotation has no [x], [y] or [z], so every frame
    of a tween with a rotation target writes [NaN] angles. *)
Lemma animate_rotation_NaN m t t0 now m' r :
  t_rotation t = Some r ->
  rotation (fst (animate (capture m t t0) now m'))
  = {| _x := NaN; _y := NaN; _z := NaN |}.
Proof.
  intros Hr. unfold animate. cbn [fst rotation capture target startRot].
  rewrite Hr. reflexivity.
Qed.

(** C3, on the code: the tween of [animateAbout] on the torus that
    modelLoader.js registers, with its only frame run when the 1000 ms are
    over.  Progress is 1 and no frame is requested; position and scale are
    the target's; the rotation is not the target (0.5, 0.5, 0) but [NaN]
    in each angle. *)
Theorem animateModelTo_rotation_not_reached :
  exists m,
    animateModelTo (Some mainTorus) aboutTarget 0 1000 = Some (m, None) /\
    (same (x (position m)) (Num 2) /\ same (y (position m)) (Num 0) /\
     same (z (position m)) (Num (- 2))) /\
    (same (x (scale m)) (Num 1) /\ same (y (scale m)) (Num 1) /\
     same (z (scale m)) (Num 1)) /\
    rotation m = {| _x := NaN; _y := NaN; _z := NaN |} /\
    ~ same (_x (rotation m)) (Num (5 # 10)).
Proof.
  eexists. split; [vm_compute; reflexivity|].
  cbn. repeat split; try reflexivity. intros [].
Qed.

(** The same tween frame by frame: the first, synchronous frame at progress
    0 already writes [NaN] angles, and the frame at 1000 ms ends the tween
    with them. *)
Example animateAbout_timeline :
  exists m0 tw m1,
    animateModelTo (Some mainTorus) aboutTarget 0 0 = Some (m0, Some tw) /\
    rotation m0 = {| _x := NaN; _y := NaN; _z := NaN |} /\
    same (x (position m0)) (Num 0) /\
    run_frames tw [16; 500; 1000; 1016]%Z m0 = (m1, false) /\
    same (x (position m1)) (Num 2) /\
    same (x (scale m1)) (Num 1) /\
    rotation m1 = {| _x := NaN; _y := NaN; _z := NaN |}.
Proof.
  eexists _, _, _. split; [vm_compute; reflexivity|].
  split; [reflexivity|]. split; [reflexivity|].
  split; [vm_compute; reflexivity|]. repeat split.
Qed.

End Tween.

(** *** animations.js: the section handlers *)

Section Sections.

Import Animations.



(** The four poses differ, so the tween tells which handler ran. *)
Lemma poses_distinct :
  NoDup [homeTarget; aboutTarget; projectsTarget; contactTarget].
Proof.
  repeat constructor; rewrite ?elem_of_cons, ?elem_of_nil;
    intuition discriminate.
Qed.


End Sections.

Example section_change_about :
  let c := {| Animations.currentSection := "home";
              Animations.models := {[ "mainTorus"%string := {| Animations.object := Animations.mainTorus |} ]};
              Animations.console := []; Animations.pending := [] |} in
  let c1 := Animations.onSectionChange "about" 0 0 c in
  let c2 := Animations.onSectionChange "gallery" 0 0 c in
  Animations.console c1 = ["Section changed to: about"%string] /\
  map fst (Animations.pending c1) = ["mainTorus"%string] /\
  map (fun tw => Animations.target (snd tw)) (Animations.pending c1) = [Animations.aboutTarget] /\
  Animations.pending c2 = [] /\ Animations.models c2 = Animations.models c.
Proof. vm_compute. repeat split. Qed.


(** *** The progressive image loader *)

Section LazyImages.

Import ImageLoader.














(** A batch that names an image no longer observed is not one the browser
    delivers. *)
Example unobserved_target_not_deliverable :
  run [ Intersections [ {| entry_target := 0%nat; isIntersecting := true |} ];
        Intersections [ {| entry_target := 0%nat; isIntersecting := true |} ] ]
      (setupImages
         [ {| dataSrc := Some "a.png"%string; src := "a-small.png"; classList := ∅;
              onerror := false; onerrorCalls := 0 |} ] true)
  = None.
Proof. vm_compute. reflexivity. Qed.

End LazyImages.

(** *** The gemstone viewer: materials, channels, steps *)

Section GemMaterials.

Import GemViewer.

Lemma updateColorIndicator_gemMaterials p v :
  gemMaterials (updateColorIndicator p v) = gemMaterials v.
Proof. unfold updateColorIndicator. destruct (indicator v); reflexivity. Qed.

Lemma updateGemHue_colors p v :
  Forall (fun m => color m = getGemColor p) (gemMaterials (updateGemHue p v)).
Proof.
  unfold updateGemHue. rewrite updateColorIndicator_gemMaterials. cbn [gemMaterials].
  apply Forall_forall. intros m Hm. apply list_elem_of_In, in_map_iff in Hm.
  destruct Hm as (m0 & <- & _). reflexivity.
Qed.

Lemma createGemMaterials_colors n :
  forall v,
    Forall (fun m => color m = getGemColor (scrollProgress v)) (gemMaterials v) ->
    Forall (fun m => color m = getGemColor (scrollProgress v))
           (gemMaterials (createGemMaterials n v)).
Proof.
  induction n as [|n IH]; intros v Hv; [exact Hv|].
  cbn [createGemMaterials].
  specialize (IH (snd (createGemMaterial (scrollProgress v) v))).
  cbn [createGemMaterial snd scrollProgress gemMaterials] in IH. apply IH.
  apply Forall_app. split; [exact Hv|]. constructor; [reflexivity|constructor].
Qed.

(** X3: in every state the gemstone viewer reaches (wheel events and loader
    callbacks in any order), every material of [gemMaterials] has the colour
    [getGemColor scrollProgress]: the materials never lag behind the scroll
    state. *)
Theorem gemMaterials_follow_scrollProgress ind container (evs : list Event) :
  Forall (fun m => color m
                   = getGemColor (scrollProgress (run evs (new_ModelViewer ind container))))
         (gemMaterials (run evs (new_ModelViewer ind container))).
Proof.
  unfold run.
  assert (H0 : Forall (fun m => color m = getGemColor (scrollProgress (new_ModelViewer ind container)))
                      (gemMaterials (new_ModelViewer ind container))) by constructor.
  revert H0. generalize (new_ModelViewer ind container).
  induction evs as [|ev evs IH]; intros v Hv; [exact Hv|].
  cbn [fold_left]. apply IH. destruct ev as [e|n|]; cbn [handle].
  - unfold dispatchWheel. destruct (canvasContainer v); [|exact Hv].
    unfold onWheel. destruct (shiftKey e); [|exact Hv].
    rewrite updateGemHue_scrollProgress. cbn [scrollProgress]. apply updateGemHue_colors.
  - unfold onModelLoaded. rewrite updateGemHue_scrollProgress. apply updateGemHue_colors.
  - unfold loadDefaultGeometry. rewrite updateGemHue_scrollProgress. apply updateGemHue_colors.
Qed.

Ltac eval_channels :=
  repeat match goal with
  | |- context [Three.setHex ?h] =>
      let c := eval vm_compute in (Three.setHex h) in
      change (Three.setHex h) with c
  end;
  cbn [Three.lerp Three.r Three.g Three.b].

Lemma Math_round_byte c : 0 <= c -> c <= 1 -> (0 <= JS.Math_round (c * 255) <= 255)%Z.
Proof.
  intros H0 H1. unfold JS.Math_round. split.
  - assert (H : 0 <= c * 255 + (1 # 2)) by lra.
    exact (Qfloor_resp_le 0 _ H).
  - assert (H : c * 255 + (1 # 2) <= 255 + (1 # 2)) by lra.
    exact (Qfloor_resp_le _ (255 + (1 # 2)) H).
Qed.

(** X4: for a progress value in [0,1] every channel of [getGemColor] is in
    [0,1], so the three numbers that [updateColorIndicator] writes into
    [rgb(...)] are bytes, 0 to 255. *)
Theorem getGemColor_channels_in_range (p : Q) :
  0 <= p <= 1 ->
  (0 <= Three.r (getGemColor p) <= 1 /\
   0 <= Three.g (getGemColor p) <= 1 /\
   0 <= Three.b (getGemColor p) <= 1) /\
  (0 <= JS.Math_round (Three.r (getGemColor p) * 255) <= 255)%Z /\
  (0 <= JS.Math_round (Three.g (getGemColor p) * 255) <= 255)%Z /\
  (0 <= JS.Math_round (Three.b (getGemColor p) * 255) <= 255)%Z.
Proof.
  intros [Hp0 Hp1].
  assert (H : 0 <= Three.r (getGemColor p) <= 1 /\
              0 <= Three.g (getGemColor p) <= 1 /\
              0 <= Three.b (getGemColor p) <= 1).
  { destruct (Qlt_le_dec (1 # 2) p) as [Hh|Hl].
    - rewrite (getGemColor_high p Hh). eval_channels. repeat split; lra.
    - rewrite (getGemColor_low p Hl). eval_channels. repeat split; lra. }
  split; [exact H|]. destruct H as ((? & ?) & (? & ?) & (? & ?)).
  repeat split; apply Math_round_byte; assumption.
Qed.

Lemma getGemColor_channels_in_range_witness :
  (0 <= JS.Math_round (Three.g (getGemColor (3 # 10)) * 255) <= 255)%Z.
Proof.
  assert (H : 0 <= 3 # 10 <= 1) by (split; discriminate).
  destruct (getGemColor_channels_in_range (3 # 10) H) as (_ & _ & Hg & _).
  exact Hg.
Defined.

Lemma Math_min_cases a b :
  (b < a /\ JS.Math_min a b = b) \/ (a <= b /\ JS.Math_min a b = a).
Proof. unfold JS.Math_min. destruct (Qlt_le_dec b a); [left|right]; split; auto. Qed.

Lemma Math_max_cases a b :
  (a < b /\ JS.Math_max a b = b) \/ (b <= a /\ JS.Math_max a b = a).
Proof. unfold JS.Math_max. destruct (Qlt_le_dec a b); [left|right]; split; auto. Qed.

(** X5: with Shift held, a wheel event with [deltaY > 0] raises the progress
    by 0.02 but not above 1, and every other wheel event, [deltaY = 0]
    included, lowers it by 0.02 but not below 0. *)
Theorem onWheel_step (e : WheelEvent) (v : ModelViewer) :
  shiftKey e = true ->
  0 <= scrollProgress v <= 1 ->
  (0 < deltaY e ->
   scrollProgress (onWheel e v)
   == (if Qlt_le_dec 1 (scrollProgress v + (2 # 100)) then 1
       else scrollProgress v + (2 # 100))) /\
  (deltaY e <= 0 ->
   scrollProgress (onWheel e v)
   == (if Qlt_le_dec (scrollProgress v - (2 # 100)) 0 then 0
       else scrollProgress v - (2 # 100))).
Proof.
  intros Hs Hv. unfold onWheel. rewrite Hs, updateGemHue_scrollProgress.
  cbn [scrollProgress].
  set (delta := if Qlt_le_dec 0 (deltaY e) then 2 # 100 else - (2 # 100)).
  destruct (Math_min_cases 1 (scrollProgress v + delta)) as [[Hm ->]|[Hm ->]];
    match goal with
    | |- context [JS.Math_max 0 ?x] =>
        destruct (Math_max_cases 0 x) as [[Hx ->]|[Hx ->]]
    end;
    subst delta; (split; intros Hd);
    destruct (Qlt_le_dec 0 (deltaY e)); try lra;
    match goal with
    | |- context [Qlt_le_dec ?a ?b] => destruct (Qlt_le_dec a b)
    end; lra.
Qed.

Lemma onWheel_step_witness :
  scrollProgress
    (onWheel {| shiftKey := true; deltaY := 0 |}
             {| gemMaterials := []; scrollProgress := 1 # 100;
                indicator := None; canvasContainer := true |})
  == 0.
Proof.
  assert (Hv : 0 <= 1 # 100 <= 1) by (split; discriminate).
  destruct (onWheel_step {| shiftKey := true; deltaY := 0 |}
              {| gemMaterials := []; scrollProgress := 1 # 100;
                 indicator := None; canvasContainer := true |}
              eq_refl Hv) as [_ Hdown].
  apply Hdown. discriminate.
Defined.

End GemMaterials.

(** *** The gemstone viewer: the info panel *)

Section Panel.

Import InfoPanel.

Lemma toggle_membership c (cl : gset string) :
  c ∈ JS.classList_toggle c cl <-> c ∉ cl.
Proof.
  unfold JS.classList_toggle, JS.classList_contains, JS.classList_add, JS.classList_remove.
  destruct (bool_decide (c ∈ cl)) eqn:E.
  - apply bool_decide_eq_true in E. set_solver.
  - apply bool_decide_eq_false in E. set_solver.
Qed.

Lemma toggle_other c k (cl : gset string) :
  c <> k -> (c ∈ JS.classList_toggle k cl <-> c ∈ cl).
Proof.
  intros Hc.
  unfold JS.classList_toggle, JS.classList_contains, JS.classList_add, JS.classList_remove.
  destruct (bool_decide (k ∈ cl)).
  - rewrite elem_of_difference, elem_of_singleton. tauto.
  - rewrite elem_of_union, elem_of_singleton. tauto.
Qed.

(** X6: when both the info panel and its button exist, after [n] clicks the
    class 'collapsed' is present exactly when it was present before and [n]
    is even or absent before and [n] is odd, and after at least one click
    the button reads '+' exactly when the panel is collapsed. *)
Theorem collapse_button_follows_panel (n : nat) (cl : gset string) (text : string) :
  exists cl' text',
    clicks n {| infoPanel := Some cl; collapseBtn := Some text |}
    = {| infoPanel := Some cl'; collapseBtn := Some text' |} /\
    ("collapsed" ∈ cl' <-> (if Nat.even n then "collapsed" ∈ cl else "collapsed" ∉ cl)) /\
    (forall c, c <> "collapsed"%string -> (c ∈ cl' <-> c ∈ cl)) /\
    (n <> 0%nat ->
     text' = if bool_decide ("collapsed" ∈ cl') then "+"%string else "−"%string).
Proof.
  revert cl text. induction n as [|n IH]; intros cl text.
  - exists cl, text. split; [reflexivity|]. split; [reflexivity|].
    split; [reflexivity|]. intros H. contradiction.
  - cbn [clicks onCollapseClick infoPanel collapseBtn].
    destruct (IH (JS.classList_toggle "collapsed" cl)
                 (if JS.classList_contains "collapsed" (JS.classList_toggle "collapsed" cl)
                  then "+"%string else "−"%string))
      as (cl' & text' & Heq & Hmem & Hother & Htext).
    exists cl', text'. split; [exact Heq|]. split; [|split].
    + rewrite Hmem. rewrite Nat.even_succ, <- Nat.negb_even.
      destruct (Nat.even n); cbn [negb]; rewrite toggle_membership; [reflexivity|].
      split; [intros H; destruct (decide ("collapsed" ∈ cl)); [assumption|contradiction]|].
      intros H Hn. contradiction.
    + intros c Hc. rewrite (Hother c Hc). apply toggle_other, Hc.
    + intros _. destruct n as [|n]; [|apply Htext; discriminate].
      cbn [clicks] in Heq. injection Heq as <- <-. reflexivity.
Qed.

End Panel.

(** *** The iridescence viewer: materials follow the thickness *)

Section FilmMaterials.

Import IridescenceViewer.

Lemma createIridescenceMaterials_thicknesses n :
  forall v,
    Forall (has_thickness (viewerThickness v)) (iridescenceMaterials v) ->
    Forall (has_thickness (viewerThickness v))
           (iridescenceMaterials (createIridescenceMaterials n v)).
Proof.
  induction n as [|n IH]; intros v Hv; [exact Hv|].
  cbn [createIridescenceMaterials].
  specialize (IH (snd (createIridescenceMaterial (viewerThickness v) v))).
  cbn [createIridescenceMaterial snd viewerThickness iridescenceMaterials] in IH. apply IH.
  apply Forall_app. split; [exact Hv|].
  constructor; [|constructor]. eexists. split; reflexivity.
Qed.

(** X7: in every state the iridescence viewer reaches, every material of
    [iridescenceMaterials] has a fresnel map whose film thickness is the
    viewer's current [filmThickness]. *)
Theorem iridescenceMaterials_follow_thickness ind container (evs : list Event) :
  Forall (has_thickness (viewerThickness (run evs (new_ModelViewer ind container))))
         (iridescenceMaterials (run evs (new_ModelViewer ind container))).
Proof.
  unfold run.
  assert (H0 : Forall (has_thickness (viewerThickness (new_ModelViewer ind container)))
                      (iridescenceMaterials (new_ModelViewer ind container)) /\
               all_mapped (new_ModelViewer ind container)) by (split; constructor).
  revert H0. generalize (new_ModelViewer ind container).
  induction evs as [|ev evs IH]; intros v [Hv Hm]; [exact Hv|].
  cbn [fold_left]. apply IH. destruct ev as [e|n|]; cbn [handle].
  - unfold dispatchWheel. destruct (canvasContainer v); [|split; assumption].
    unfold onWheel. destruct (shiftKey e); [|split; assumption].
    rewrite updateFilmThickness_thickness. cbn [viewerThickness]. split.
    + apply updateFilmThickness_sets, Hm.
    + apply updateFilmThickness_mapped, Hm.
  - unfold onModelLoaded.
    destruct (updateThicknessIndicator_keeps
                (viewerThickness (createIridescenceMaterials n v))
                (createIridescenceMaterials n v)) as [Ht Hl].
    unfold all_mapped. rewrite Ht, Hl, createIridescenceMaterials_thickness. split.
    + apply createIridescenceMaterials_thicknesses, Hv.
    + apply createIridescenceMaterials_mapped, Hm.
  - unfold loadDefaultGeometry.
    destruct (updateThicknessIndicator_keeps
                (viewerThickness (createIridescenceMaterials (1 + 4) v))
                (createIridescenceMaterials (1 + 4) v)) as [Ht Hl].
    unfold all_mapped. rewrite Ht, Hl, createIridescenceMaterials_thickness. split.
    + apply createIridescenceMaterials_thicknesses, Hv.
    + apply createIridescenceMaterials_mapped, Hm.
Qed.

End FilmMaterials.
